(** * A3R_Readout: timing quantization, batch validation and experiment builders

    Shallow embedding of [helper_funcs/helpers.py] and
    [helper_funcs/experiments.py].

    Conventions of the embedding.
    - Numbers come in two readings.  Module [Binary64] holds the quantizer
      ([get_closest_multiple_of], [get_closest_multiple_of_16],
      [get_dt_from]) as Python computes it: an [int] is a [Z], a [float]
      an IEEE 754 binary64 number ([spec_float]), and [+] and [/] round to
      nearest, ties to even.  The statements about the quantizer itself
      are made there.
    - The builders are written over exact arithmetic: a number is a
      rational [Q], and [+], [-], [*] and [/] are the exact operations, in
      the quantizer of the same names outside [Binary64] as well.  The two
      readings of the quantizer agree on every integer sample count
      between [-2^53] and [2^53 - 8] (lemma [quantizers_agree_on_integers]).
      What is stated about the builders concerns the sequences they
      assemble and the exceptions they raise; of the sweep values computed
      by [np.linspace] only the count, the order and the end points enter
      the statements.
    - [int(x)] truncates toward zero; [%] on integers is Python's floor
      modulo, whose sign follows the divisor, as [Z.modulo] does.
    - A raised exception is a value of [exception]; code that can raise
      lives in the [result] monad.  The builders, which talk to the backend
      and to the pulse builder, live in [M], which also threads the log of
      those calls, so that what happened before an exception stays visible.
    - An f-string is the list of its literal and numeric fragments.
    - [experiments.py] imports [get_closest_multiple_of_16], [get_dt_from]
      and [get_single_qubit_pulses] from [helper_funcs.utils]; they are
      taken to be the functions of those names in [helpers.py].
    - The pulse library validates the parameters of a pulse when it is
      constructed and raises [PulseError].  For the class [ACStarkPhoton]
      the validation in force is a parameter, [Library]; the function
      builders of [helpers.py] are written for parameters the library
      accepts. *)

From Stdlib Require Import ZArith QArith Qround Qabs List String Bool Lia Lqa.
From Stdlib Require Import Permutation SpecFloat.
Import ListNotations.

Open Scope Z_scope.

(** ** Exceptions *)

Inductive exception : Type :=
| ValueError (msg : string)
| IndexError (msg : string)
| ZeroDivisionError (msg : string)
| TypeError (msg : string)
| AttributeError (name : string)
| UnboundLocalError (name : string)
| OverflowError (msg : string)
| PulseError (msg : string).



Definition result (A : Type) : Type := (exception + A)%type.

Definition ret {A} (a : A) : result A := inr a.
Definition raise {A} (e : exception) : result A := inl e.
Definition bind {A B} (m : result A) (k : A -> result B) : result B :=
  match m with
  | inl e => inl e
  | inr a => k a
  end.

Declare Scope result_scope.
Delimit Scope result_scope with result.
Notation "x <- m ;; k" := (bind m (fun x => k))
  (at level 61, m at next level, right associativity) : result_scope.

(** Reading a local variable: [slot] is what the frame holds for [name]
    at that point, [None] when no assignment has run yet. *)
Definition read_local {A} (name : string) (slot : option A) : result A :=
  match slot with
  | Some a => ret a
  | None => raise (UnboundLocalError name)
  end.

(** ** Duration quantization ([helpers.py], lines 8-19), in exact
       arithmetic *)

(** [int(x)] on a float: truncation toward zero. *)
Definition py_int (x : Q) : Z := Z.quot (Qnum x) (Z.pos (Qden x)).

(** [a % b] on Python integers. *)
Definition py_mod (a b : Z) : result Z :=
  if Z.eqb b 0 then raise (ZeroDivisionError "integer modulo by zero")
  else ret (a mod b).

(** [int(value + base_number / 2) - (int(value + base_number / 2) % base_number)] *)
Definition get_closest_multiple_of (value : Q) (base_number : Z) : result Z :=
  (r <- py_mod (py_int (value + inject_Z base_number / 2)) base_number ;;
   ret (py_int (value + inject_Z base_number / 2) - r))%result.

Definition get_closest_multiple_of_16 (num : Q) : result Z :=
  get_closest_multiple_of num 16.

(** The default sample period, [1 / 4.5 * 1.0e-9] seconds. *)
Definition default_dt : Q := 1 / (45 # 10) * (1 # 1000000000).

(** [get_dt_from(sec, dt)]; a zero [dt] makes the float division raise. *)
Definition get_dt_from (sec : Q) (dt : Q) : result Z :=
  if Qeq_bool dt 0 then raise (ZeroDivisionError "float division by zero")
  else get_closest_multiple_of (sec / dt) 16.

(** ** Duration quantization ([helpers.py], lines 8-19), in binary64 *)

(** A Python [float] is an IEEE 754 binary64 number and its arithmetic
    rounds to nearest, ties to even; [spec_float] with [prec = 53] and
    [emax = 1024] is the standard library's specification of both.  This
    module holds [get_closest_multiple_of] and [get_dt_from] as Python
    computes them. *)
Module Binary64.

Definition prec : Z := 53.
Definition emax : Z := 1024.

(** A Python number: an [int] or a [float]. *)
Inductive number : Type :=
| Int (n : Z)
| Float (x : spec_float).

(** [float(n)]: the nearest float, [OverflowError] beyond the range. *)
Definition of_int (n : Z) : result spec_float :=
  match binary_normalize prec emax n 0 false with
  | S754_infinity _ =>
      raise (OverflowError "int too large to convert to float")
  | x => ret x
  end.

Definition to_float (v : number) : result spec_float :=
  match v with
  | Int n => of_int n
  | Float x => ret x
  end.

Definition is_zero (x : spec_float) : bool :=
  match x with
  | S754_zero _ => true
  | _ => false
  end.

(** An [int] as an operand of the division of two [int]s: its magnitude
    is the significand, whatever its size. *)
Definition unrounded (n : Z) : spec_float :=
  match n with
  | Z0 => S754_zero false
  | Zpos p => S754_finite false p 0
  | Zneg p => S754_finite true p 0
  end.

(** [a / b], true division.  The quotient of two [int]s is rounded once,
    from the integers themselves; otherwise an [int] operand is converted
    first. *)
Definition truediv (a b : number) : result spec_float :=
  match a, b with
  | Int _, Int 0 => raise (ZeroDivisionError "division by zero")
  | Int n, Int d =>
      match SFdiv prec emax (unrounded n) (unrounded d) with
      | S754_infinity _ =>
          raise (OverflowError "integer division result too large for a float")
      | q => ret q
      end
  | _, _ =>
      (x <- to_float a ;;
       y <- to_float b ;;
       if is_zero y then raise (ZeroDivisionError "float division by zero")
       else ret (SFdiv prec emax x y))%result
  end.

(** [a * b] on floats. *)
Definition mul (x y : spec_float) : spec_float := SFmul prec emax x y.

(** [v + y] where [y] is a float: an [int] on the left is converted. *)
Definition add (v : number) (y : spec_float) : result spec_float :=
  (x <- to_float v ;;
   ret (SFadd prec emax x y))%result.

(** [int(x)] on a float: truncation toward zero. *)
Definition to_int (x : spec_float) : result Z :=
  match x with
  | S754_zero _ => ret 0
  | S754_finite s m e => ret (cond_Zopp s (Z.shiftl (Zpos m) e))
  | S754_infinity _ =>
      raise (OverflowError "cannot convert float infinity to integer")
  | S754_nan => raise (ValueError "cannot convert float NaN to integer")
  end.

(** [int(value + base_number / 2) - (int(value + base_number / 2) % base_number)];
    the second [int(...)] repeats the first. *)
Definition get_closest_multiple_of (value : number) (base_number : Z)
  : result Z :=
  (half <- truediv (Int base_number) (Int 2) ;;
   sum <- add value half ;;
   whole <- to_int sum ;;
   r <- py_mod whole base_number ;;
   ret (whole - r))%result.

Definition get_closest_multiple_of_16 (num : number) : result Z :=
  get_closest_multiple_of num 16.

(** A decimal literal [n / 10^k] or [n * 10^k]: the float nearest to it. *)
Definition literal (n : Z) (ten_to : Z) : result spec_float :=
  if ten_to <? 0 then truediv (Int n) (Int (10 ^ (- ten_to)))
  else of_int (n * 10 ^ ten_to).

(** The default sample period, [1 / 4.5 * 1.0e-9] seconds. *)
Definition default_dt : result spec_float :=
  (four_and_a_half <- literal 45 (-1) ;;
   q <- truediv (Int 1) (Float four_and_a_half) ;;
   nano <- literal 1 (-9) ;;
   ret (mul q nano))%result.

(** [get_dt_from(sec, dt)]: [get_closest_multiple_of(sec / dt, 16)]. *)
Definition get_dt_from (sec dt : number) : result Z :=
  (q <- truediv sec dt ;;
   get_closest_multiple_of (Float q) 16)%result.

(** [x] is the float of [n / 2^scale], held exactly: a significand of 53
    bits and the exponent that goes with it. *)
Definition dyadic (scale : Z) (x : spec_float) (n : Z) : Prop :=
  match x with
  | S754_zero _ => n = 0
  | S754_finite s m e =>
      exists j, e = - j - scale /\ 0 <= j <= 52
                /\ cond_Zopp s (Zpos m) = n * 2 ^ j
                /\ Zpos (digits2_pos m) = 53
  | _ => False
  end.

(** [x] is the float of the integer [n]. *)
Definition holds (x : spec_float) (n : Z) : Prop := dyadic 0 x n.

(** The number [v] is the integer [n]: the [int] itself, or the float
    that holds it. *)
Definition integer (v : number) (n : Z) : Prop :=
  match v with
  | Int m => m = n
  | Float x => holds x n
  end.

(** The number [v] is [t / 2]: an [int] of which [t] is the double, or the
    float of that value. *)
Definition halves (v : number) (t : Z) : Prop :=
  match v with
  | Int m => t = 2 * m
  | Float x => dyadic 1 x t
  end.

(** The float 8. *)
Definition eight : spec_float := S754_finite false (2 ^ 52) (-49).


End Binary64.

(** ** Numbers: [round], [np.linspace], indexing *)

(** Nearest integer, exact halves to the even neighbour: Python's [round(x)]. *)
Definition round_half_even (x : Q) : Z :=
  let f := Qfloor x in
  match Qcompare (x - inject_Z f) (1 # 2) with
  | Lt => f
  | Gt => f + 1
  | Eq => if Z.even f then f else f + 1
  end.

(** [round(x, ndigits)] on a float. *)
Definition py_round (x : Q) (ndigits : nat) : Q :=
  inject_Z (round_half_even (x * inject_Z (10 ^ Z.of_nat ndigits)))
  / inject_Z (10 ^ Z.of_nat ndigits).

(** [np.linspace(start, stop, num)]: [start + i * step] with
    [step = (stop - start) / (num - 1)]; a single sample is [start]. *)
Definition np_linspace (start stop : Q) (num : Z) : result (list Q) :=
  if num <? 0 then
    raise (ValueError "Number of samples must be non-negative.")
  else
    let div := if num =? 1 then 1 else num - 1 in
    let step := ((stop - start) / inject_Z div)%Q in
    ret (map (fun i => (inject_Z (Z.of_nat i) * step + start)%Q)
             (seq 0 (Z.to_nat num))).

(** [l[i]] for [i >= 0]. *)
Definition py_index {A} (l : list A) (i : nat) : result A :=
  match nth_error l i with
  | Some a => ret a
  | None => raise (IndexError "index out of range")
  end.

(** [l[-k]] for [k >= 1]. *)
Definition py_index_end {A} (l : list A) (k : nat) : result A :=
  match nth_error (rev l) (Nat.pred k) with
  | Some a => ret a
  | None => raise (IndexError "index out of range")
  end.

(** ** The pulse library, as far as the program uses it *)

Inductive Channel : Type :=
| DriveChannel (qubit : Z)
| MeasureChannel (qubit : Z)
| MemorySlot (qubit : Z).

(** A value that is either concrete or a [Parameter] still to be assigned. *)
Inductive pval (A : Type) : Type :=
| Bound (a : A)
| Free (parameter : string).
Arguments Bound {A} a.
Arguments Free {A} parameter.

Inductive Pulse : Type :=
| Gaussian (duration : Z) (amp sigma angle : Q)
| GaussianSquare (duration : Z) (amp sigma width angle : Q)
| Constant (duration : Z) (amp angle : Q)
| Calibrated (gate : string) (duration : Z) (sigma angle : Q).

Definition pulse_duration (p : Pulse) : Z :=
  match p with
  | Gaussian d _ _ _ => d
  | GaussianSquare d _ _ _ _ => d
  | Constant d _ _ => d
  | Calibrated _ d _ _ => d
  end.

(** The pulse constructors validate their parameters and raise
    [PulseError] on those they refuse (an amplitude above the limit, a flat
    top of negative width, ...).  Which tests are in force belongs to the
    installed library, not to the program: [Library] stands for them. *)
Record Library : Type := mkLibrary {
  accepts : Pulse -> bool
}.

(** A fragment of an f-string. *)
Inductive fragment : Type :=
| Lit (s : string)
| Num (x : Q).

Definition label : Type := list fragment.

#[warnings="-register-all"]
Inductive Instruction : Type :=
| ShiftFrequency (frequency : pval Q) (channel : Channel)
| Play (pulse : Pulse) (channel : Channel) (name : label)
| Delay (duration : pval Z) (channel : Channel) (name : label)
| Acquire (duration : Z) (qubit : Z) (register : Channel)
| Measure (qubit : Z) (register : Channel)
| Call (target : list Instruction)
| AlignRight (body : list Instruction).

(** What [with pulse.build(...) as sched] hands back. *)
Record ScheduleBlock : Type := mkScheduleBlock {
  block_name : label;
  blocks : list Instruction
}.

(** A scheduled sequence: [instructions] holds [(start time, instruction)]
    pairs, as [Schedule.instructions] does. *)
Record Schedule : Type := mkSchedule {
  schedule_name : label;
  instructions : list (Z * Instruction)
}.

(** [op.duration] of a scheduled instruction.  Frequency shifts take no
    time; a delay left symbolic has no scheduled form and counts as [0]. *)
Definition duration (op : Instruction) : Z :=
  match op with
  | Play p _ _ => pulse_duration p
  | Delay (Bound d) _ _ => d
  | Acquire d _ _ => d
  | _ => 0
  end.

Definition is_Acquire (op : Instruction) : bool :=
  match op with Acquire _ _ _ => true | _ => false end.

Definition is_Play (op : Instruction) : bool :=
  match op with Play _ _ _ => true | _ => false end.

Definition is_Delay (op : Instruction) : bool :=
  match op with Delay _ _ _ => true | _ => false end.

(** ** The batch validator ([helpers.py], lines 22-56) *)

Module Checker.

Definition msg_not_divisible : string :=
  "At least one Delay or Play Instruction has a duration that is not divisible by 16".
Definition msg_zero : string :=
  "At least one Delay or Play Instruction has a duration of 0".
Definition msg_count : string :=
  "There are less/more than one acquisition instructions per circuit in the job".
Definition msg_not_identical : string :=
  "All Acquisition Durations are not identical".
Definition msg_acq_multiple : string :=
  "All Acquisition Durations must be positive integer multiples of 16".

(** [np.array(schedule.instructions)[:, 1]]: the second column; an empty
    instruction tuple gives a one-dimensional array, which cannot take two
    indices. *)
Definition ops_array (schedule : Schedule) : result (list Instruction) :=
  match instructions schedule with
  | [] => raise (IndexError "too many indices for array")
  | l => ret (map snd l)
  end.

(** The inner loop, over one sequence; the state is
    [(acq_duration_list, all_duration_list)]. *)
Fixpoint scan_ops (ops : list Instruction) (st : list Z * list Z)
  : list Z * list Z :=
  match ops with
  | [] => st
  | op :: rest =>
      let st1 := if is_Acquire op then (fst st ++ [duration op], snd st)
                 else st in
      let st2 := if is_Play op then (fst st1, snd st1 ++ [duration op])
                 else st1 in
      scan_ops rest st2
  end.

(** The outer loop, over the batch. *)
Fixpoint scan_job (job : list Schedule) (st : list Z * list Z)
  : result (list Z * list Z) :=
  match job with
  | [] => ret st
  | schedule :: rest =>
      (ops <- ops_array schedule ;;
       scan_job rest (scan_ops ops st))%result
  end.

(** The checks that follow the loops; [n] is [len(job)]. *)
Definition check_durations (n : nat) (acq_duration_array all_duration_array : list Z)
  : result unit :=
  if negb (forallb (fun d => d mod 16 =? 0) all_duration_array) then
    raise (ValueError msg_not_divisible)
  else if negb (forallb (fun d => negb (d =? 0)) all_duration_array) then
    raise (ValueError msg_zero)
  else if negb (Nat.eqb (List.length acq_duration_array) n) then
    raise (ValueError msg_count)
  else
    match acq_duration_array with
    | [] => raise (IndexError "index 0 is out of bounds for axis 0 with size 0")
    | first :: _ =>
        if negb (forallb (fun d => d =? first) acq_duration_array) then
          raise (ValueError msg_not_identical)
        else if negb (first mod 16 =? 0) then
          raise (ValueError msg_acq_multiple)
        else ret tt
    end.

Definition acquisition_checker (job : list Schedule) : result unit :=
  (st <- scan_job job ([], []) ;;
   check_durations (List.length job) (fst st) (snd st))%result.

End Checker.

(** ** The builder monad *)

(** What a builder does to its collaborators: a read of the backend's
    pulse catalog, and the opening of a [pulse.build] context, which is
    where the construction of a sequence starts. *)
Inductive event : Type :=
| CatalogLookup (qubit : Z)
| BuildSchedule (name : label).

Definition M (A : Type) : Type := list event -> result A * list event.

Definition mret {A} (a : A) : M A := fun log => (inr a, log).
Definition mraise {A} (e : exception) : M A := fun log => (inl e, log).
Definition mbind {A B} (m : M A) (k : A -> M B) : M B :=
  fun log =>
    match m log with
    | (inl e, log') => (inl e, log')
    | (inr a, log') => k a log'
    end.
Definition lift {A} (r : result A) : M A := fun log => (r, log).
Definition emit (ev : event) : M unit := fun log => (inr tt, log ++ [ev]).

(** A call, from a fresh log. *)
Definition run {A} (m : M A) : result A * list event := m [].

Declare Scope builder_scope.
Delimit Scope builder_scope with M.
Notation "x <- m ;; k" := (mbind m (fun x => k))
  (at level 61, m at next level, right associativity) : builder_scope.
Notation "m ;;; k" := (mbind m (fun _ => k))
  (at level 61, right associativity) : builder_scope.

(** [for x in xs: body], the loop variables gathered in [s]. *)
Fixpoint for_each {A S} (xs : list A) (body : A -> S -> M S) (s : S) : M S :=
  match xs with
  | [] => mret s
  | x :: rest => (s' <- body x s ;; for_each rest body s')%M
  end.

(** The body of a [with pulse.build(...)] block appends instructions to
    the block under construction and may raise. *)
Definition B (A : Type) : Type :=
  list Instruction -> result (A * list Instruction).

Definition bret {A} (a : A) : B A := fun ctx => inr (a, ctx).
Definition bbind {A C} (m : B A) (k : A -> B C) : B C :=
  fun ctx =>
    match m ctx with
    | inl e => inl e
    | inr (a, ctx') => k a ctx'
    end.
Definition blift {A} (r : result A) : B A :=
  fun ctx => match r with inl e => inl e | inr a => inr (a, ctx) end.
Definition append_instruction (i : Instruction) : B unit :=
  fun ctx => inr (tt, ctx ++ [i]).

Declare Scope block_scope.
Delimit Scope block_scope with B.
Notation "x <- m ;; k" := (bbind m (fun x => k))
  (at level 61, m at next level, right associativity) : block_scope.
Notation "m ;;; k" := (bbind m (fun _ => k))
  (at level 61, right associativity) : block_scope.

Module pulse.

(** A call of [pulse.Gaussian(...)] or [pulse.GaussianSquare(...)] under
    the validation of [library]. *)
Definition construct (library : Library) (p : Pulse) : result Pulse :=
  if accepts library p then ret p
  else raise (PulseError "invalid pulse parameters").

Definition shift_frequency (f : pval Q) (ch : Channel) : B unit :=
  append_instruction (ShiftFrequency f ch).
Definition play (p : Pulse) (ch : Channel) (name : label) : B unit :=
  append_instruction (Play p ch name).
Definition delay (d : pval Z) (ch : Channel) (name : label) : B unit :=
  append_instruction (Delay d ch name).
Definition measure (qubit : Z) (register : Channel) : B unit :=
  append_instruction (Measure qubit register).
Definition call (target : ScheduleBlock) : B unit :=
  append_instruction (Call (blocks target)).

(** [with pulse.align_right(): body]. *)
Definition align_right (body : B unit) : B unit :=
  fun ctx =>
    match body [] with
    | inl e => inl e
    | inr (_, inner) => inr (tt, ctx ++ [AlignRight inner])
    end.

(** [with pulse.build(backend, default_alignment="sequential", name=...) as sched: body]. *)
Definition build (name : label) (body : B unit) : M ScheduleBlock :=
  (emit (BuildSchedule name) ;;;
   match body [] with
   | inl e => mraise e
   | inr (_, ctx) => mret (mkScheduleBlock name ctx)
   end)%M.

End pulse.

(** *** Parameter assignment *)

Inductive pyval : Type :=
| PyInt (n : Z)
| PyFloat (x : Q).

Definition binding : Type := list (string * pyval).

Fixpoint lookup_binding (b : binding) (p : string) : option pyval :=
  match b with
  | [] => None
  | (k, v) :: rest => if String.eqb k p then Some v else lookup_binding rest p
  end.

Definition assign_frequency (b : binding) (f : pval Q) : pval Q :=
  match f with
  | Bound x => Bound x
  | Free p =>
      match lookup_binding b p with
      | Some (PyInt n) => Bound (inject_Z n)
      | Some (PyFloat x) => Bound x
      | None => Free p
      end
  end.

(** A duration takes integers only. *)
Definition assign_duration (b : binding) (d : pval Z) : result (pval Z) :=
  match d with
  | Bound n => ret (Bound n)
  | Free p =>
      match lookup_binding b p with
      | Some (PyInt n) => ret (Bound n)
      | Some (PyFloat _) => raise (TypeError "duration must be an integer")
      | None => ret (Free p)
      end
  end.

Fixpoint assign_instruction (b : binding) (i : Instruction) : result Instruction :=
  match i with
  | ShiftFrequency f ch => ret (ShiftFrequency (assign_frequency b f) ch)
  | Delay d ch name => (d' <- assign_duration b d ;; ret (Delay d' ch name))%result
  | Call target =>
      (t' <- (fix go (l : list Instruction) : result (list Instruction) :=
                match l with
                | [] => ret []
                | x :: rest =>
                    x' <- assign_instruction b x ;;
                    rest' <- go rest ;;
                    ret (x' :: rest')
                end) target ;;
       ret (Call t'))%result
  | AlignRight body =>
      (t' <- (fix go (l : list Instruction) : result (list Instruction) :=
                match l with
                | [] => ret []
                | x :: rest =>
                    x' <- assign_instruction b x ;;
                    rest' <- go rest ;;
                    ret (x' :: rest')
                end) body ;;
       ret (AlignRight t'))%result
  | other => ret other
  end.

Fixpoint assign_instructions (b : binding) (l : list Instruction)
  : result (list Instruction) :=
  match l with
  | [] => ret []
  | x :: rest =>
      (x' <- assign_instruction b x ;;
       rest' <- assign_instructions b rest ;;
       ret (x' :: rest'))%result
  end.

(** [sched.assign_parameters(value_dict, inplace=False)]: a new block, the
    template untouched. *)
Definition assign_parameters (b : binding) (sched : ScheduleBlock)
  : result ScheduleBlock :=
  (bs <- assign_instructions b (blocks sched) ;;
   ret (mkScheduleBlock (block_name sched) bs))%result.

(** ** The backend and its pulse catalog ([helpers.py], lines 59-90) *)

Record Backend : Type := mkBackend {
  (** [backend.configuration().dt] *)
  dt : Q;
  (** [backend.defaults().instruction_schedule_map.get(gate, qubits=[qubit])] *)
  instruction_schedule_map : string -> Z -> Schedule
}.

(** [instruction.pulse] *)
Definition pulse_of (op : Instruction) : result Pulse :=
  match op with
  | Play p _ _ => ret p
  | _ => raise (AttributeError "pulse")
  end.

(** [pulse.sigma] *)
Definition pulse_sigma (p : Pulse) : result Q :=
  match p with
  | Gaussian _ _ s _ => ret s
  | GaussianSquare _ _ s _ _ => ret s
  | Calibrated _ _ s _ => ret s
  | Constant _ _ _ => raise (AttributeError "sigma")
  end.

(** [pulse.angle] *)
Definition pulse_angle (p : Pulse) : Q :=
  match p with
  | Gaussian _ _ _ a => a
  | GaussianSquare _ _ _ _ a => a
  | Constant _ _ a => a
  | Calibrated _ _ _ a => a
  end.

(** The dictionary [get_single_qubit_pulses] returns, one field per key. *)
Record single_qubit_rr_dict : Type := mk_single_qubit_rr_dict {
  dict_x_pulse : Pulse;          (* "x pulse" *)
  dict_sx_pulse : Pulse;         (* "sx pulse" *)
  dict_meas_pulse : Pulse;       (* "meas pulse" *)
  dict_meas_delay : Instruction  (* "meas delay" *)
}.

Definition get_single_qubit_pulses (qubit : Z) (backend : Backend)
  : M single_qubit_rr_dict :=
  (emit (CatalogLookup qubit) ;;;
   let measure_instructions :=
     instructions (instruction_schedule_map backend "measure" qubit) in
   m2 <- lift (py_index_end (map snd measure_instructions) 2) ;;
   measure_pulse <- lift (pulse_of m2) ;;
   measure_delay <- lift (py_index_end (map snd measure_instructions) 1) ;;
   let x_instructions :=
     instructions (instruction_schedule_map backend "x" qubit) in
   x0 <- lift (py_index (map snd x_instructions) 0) ;;
   x_pulse <- lift (pulse_of x0) ;;
   let sx_instructions :=
     instructions (instruction_schedule_map backend "sx" qubit) in
   sx0 <- lift (py_index (map snd sx_instructions) 0) ;;
   sx_pulse <- lift (pulse_of sx0) ;;
   mret (mk_single_qubit_rr_dict x_pulse sx_pulse measure_pulse measure_delay))%M.

(** ** Sweep arguments *)

(** An explicit sweep is a Python list or a NumPy array. *)
Inductive sweep : Type :=
| PyList (values : list Q)
| NdArray (values : list Q).

Definition sweep_values (s : sweep) : list Q :=
  match s with PyList l => l | NdArray l => l end.

(** The value of a comparison: a [bool], or an array of them when one side
    is a NumPy array. *)
Inductive truth : Type :=
| PyBool (b : bool)
| BoolArray (bs : list bool).

(** [x == None] *)
Definition eq_None {A} (x : option A) : bool :=
  match x with None => true | Some _ => false end.

(** [freq_linspace == None]: NumPy compares element by element. *)
Definition sweep_eq_None (x : option sweep) : truth :=
  match x with
  | None => PyBool true
  | Some (PyList _) => PyBool false
  | Some (NdArray l) => BoolArray (map (fun _ => false) l)
  end.

Definition np_logical_xor (a : truth) (b : bool) : truth :=
  match a with
  | PyBool x => PyBool (xorb x b)
  | BoolArray xs => BoolArray (map (fun x => xorb x b) xs)
  end.

(** [not v]: the truth value of an array with several elements is an
    error; that of an empty one is [False] (with a deprecation warning;
    recent NumPy raises a [ValueError] there too). *)
Definition py_not (v : truth) : result bool :=
  match v with
  | PyBool b => ret (negb b)
  | BoolArray [] => ret true
  | BoolArray [b] => ret (negb b)
  | BoolArray _ =>
      raise (ValueError "The truth value of an array with more than one element is ambiguous. Use a.any() or a.all()")
  end.

Definition msg_sweep : string :=
  "either freq_linspace must be passed or freq_span + num_experiments must be passed".

(** [np.linspace(-0.5 * freq_span, 0.5 * freq_span, num_experiments)] *)
Definition centred_linspace (freq_span : option Q) (num_experiments : option Z)
  : result (list Q) :=
  match freq_span, num_experiments with
  | Some span, Some num =>
      np_linspace (- (1 # 2) * span)%Q ((1 # 2) * span)%Q num
  | None, _ =>
      raise (TypeError "unsupported operand type(s) for *: 'float' and 'NoneType'")
  | _, None =>
      raise (TypeError "'NoneType' object cannot be interpreted as an integer")
  end.

(** [for x in v] over an optional sequence. *)
Definition iterate (v : option (list Q)) : result (list Q) :=
  match v with
  | Some l => ret l
  | None => raise (TypeError "'NoneType' object is not iterable")
  end.

(** ** Frequency spectroscopy ([helpers.py], lines 93-152;
       [experiments.py], lines 9-76)

    The function and the class each have their own loop. *)

Definition details_dict : Type := list (string * Q).

Definition MHz : Q := 1000000.

(** The state of the loop: the two result lists and [details], which is
    bound by the first pass through the body. *)
Definition freq_spec_state : Type :=
  (list ScheduleBlock * list ScheduleBlock * option details_dict)%type.

Definition freq_spec_body (qubit : Z) (x_pulse : Pulse) (freq_linspace : list Q)
    (freq_shift : Q) (st : freq_spec_state) : M freq_spec_state :=
  (let '(freq_experiments_g, freq_experiments_e, _) := st in
   freq_spec_g_sched <-
     pulse.build [Lit "freq spec g, shift: "; Num (py_round (freq_shift / MHz) 3); Lit "MHz"]
       (let meas_chan := MeasureChannel qubit in
        pulse.shift_frequency (Bound freq_shift) meas_chan ;;;
        pulse.measure qubit (MemorySlot qubit))%B ;;
   let freq_experiments_g := freq_experiments_g ++ [freq_spec_g_sched] in
   freq_spec_e_sched <-
     pulse.build [Lit "freq spec e, shift: "; Num (py_round (freq_shift / MHz) 3); Lit "MHz"]
       (let qubit_chan := DriveChannel qubit in
        let meas_chan := MeasureChannel qubit in
        pulse.shift_frequency (Bound freq_shift) meas_chan ;;;
        pulse.play x_pulse qubit_chan [] ;;;
        pulse.measure qubit (MemorySlot qubit))%B ;;
   let freq_experiments_e := freq_experiments_e ++ [freq_spec_e_sched] in
   f1 <- lift (py_index freq_linspace 1) ;;
   f0 <- lift (py_index freq_linspace 0) ;;
   flast <- lift (py_index_end freq_linspace 1) ;;
   f0' <- lift (py_index freq_linspace 0) ;;
   let details :=
     [ ("Total Experiment Size"%string,
        inject_Z (Z.of_nat (List.length freq_experiments_g
                            + List.length freq_experiments_e)));
       ("Frequency Step Size (MHz)"%string, py_round ((f1 - f0) / MHz) 3);
       ("Frequency Span (MHz)"%string, py_round ((flast - f0') / MHz) 3) ] in
   mret (freq_experiments_g, freq_experiments_e, Some details))%M.

(** The loop of [rr_freq_spec] and the [return] that follows it. *)
Definition freq_spec_jobs (qubit : Z) (x_pulse : Pulse) (freq_linspace : list Q)
  : M (list ScheduleBlock * list ScheduleBlock * details_dict) :=
  (st <- for_each freq_linspace (freq_spec_body qubit x_pulse freq_linspace)
           ([], [], None) ;;
   let '(freq_experiments_g, freq_experiments_e, details_slot) := st in
   details <- lift (read_local "details" details_slot) ;;
   mret (freq_experiments_g, freq_experiments_e, details))%M.

Definition rr_freq_spec (qubit : Z) (backend : Backend)
    (freq_span : option Q) (num_experiments : option Z)
    (freq_linspace : option sweep)
  : M (list ScheduleBlock * list ScheduleBlock * details_dict) :=
  (let construct_linspace := eq_None freq_span && eq_None num_experiments in
   let valid_setting :=
     np_logical_xor (sweep_eq_None freq_linspace) construct_linspace in
   invalid <- lift (py_not valid_setting) ;;
   if invalid then mraise (ValueError msg_sweep)
   else
     freq_linspace <-
       (if negb construct_linspace
        then l <- lift (centred_linspace freq_span num_experiments) ;;
             mret (Some l)
        else mret (option_map sweep_values freq_linspace)) ;;
     single_q_dict <- get_single_qubit_pulses qubit backend ;;
     let x_pulse := dict_x_pulse single_q_dict in
     freq_linspace <- lift (iterate freq_linspace) ;;
     freq_spec_jobs qubit x_pulse freq_linspace)%M.

Module RRFreqSpec.

Record t : Type := mk {
  qubit : Z;
  backend : Backend;
  freq_linspace : option (list Q);
  x_pulse : Pulse
}.

Definition __init__ (qubit : Z) (backend : Backend)
    (freq_span : option Q) (num_experiments : option Z)
    (freq_linspace : option sweep) : M t :=
  (let construct_linspace := eq_None freq_span && eq_None num_experiments in
   let valid_setting :=
     np_logical_xor (sweep_eq_None freq_linspace) construct_linspace in
   invalid <- lift (py_not valid_setting) ;;
   if invalid then mraise (ValueError msg_sweep)
   else
     self_freq_linspace <-
       (if negb construct_linspace
        then l <- lift (centred_linspace freq_span num_experiments) ;;
             mret (Some l)
        else mret (option_map sweep_values freq_linspace)) ;;
     single_q_dict <- get_single_qubit_pulses qubit backend ;;
     mret (mk qubit backend self_freq_linspace (dict_x_pulse single_q_dict)))%M.

(** The body of the loop of [get_jobs] ([experiments.py], lines 41-74);
    [freq_linspace] is [self.freq_linspace], the list being walked. *)
Definition get_jobs_body (self : t) (freq_linspace : list Q)
    (freq_shift : Q) (st : freq_spec_state) : M freq_spec_state :=
  (let '(freq_experiments_g, freq_experiments_e, _) := st in
   freq_spec_g_sched <-
     pulse.build [Lit "freq spec g, shift: "; Num (py_round (freq_shift / MHz) 3); Lit "MHz"]
       (let meas_chan := MeasureChannel (qubit self) in
        pulse.shift_frequency (Bound freq_shift) meas_chan ;;;
        pulse.measure (qubit self) (MemorySlot (qubit self)))%B ;;
   let freq_experiments_g := freq_experiments_g ++ [freq_spec_g_sched] in
   freq_spec_e_sched <-
     pulse.build [Lit "freq spec e, shift: "; Num (py_round (freq_shift / MHz) 3); Lit "MHz"]
       (let qubit_chan := DriveChannel (qubit self) in
        let meas_chan := MeasureChannel (qubit self) in
        pulse.shift_frequency (Bound freq_shift) meas_chan ;;;
        pulse.play (x_pulse self) qubit_chan [] ;;;
        pulse.measure (qubit self) (MemorySlot (qubit self)))%B ;;
   let freq_experiments_e := freq_experiments_e ++ [freq_spec_e_sched] in
   f1 <- lift (py_index freq_linspace 1) ;;
   f0 <- lift (py_index freq_linspace 0) ;;
   flast <- lift (py_index_end freq_linspace 1) ;;
   f0' <- lift (py_index freq_linspace 0) ;;
   let details :=
     [ ("Total Experiment Size"%string,
        inject_Z (Z.of_nat (List.length freq_experiments_g
                            + List.length freq_experiments_e)));
       ("Frequency Step Size (MHz)"%string, py_round ((f1 - f0) / MHz) 3);
       ("Frequency Span (MHz)"%string, py_round ((flast - f0') / MHz) 3) ] in
   mret (freq_experiments_g, freq_experiments_e, Some details))%M.

Definition get_jobs (self : t)
  : M (list ScheduleBlock * list ScheduleBlock * details_dict) :=
  (freq_linspace <- lift (iterate (freq_linspace self)) ;;
   st <- for_each freq_linspace (get_jobs_body self freq_linspace)
           ([], [], None) ;;
   let '(freq_experiments_g, freq_experiments_e, details_slot) := st in
   details <- lift (read_local "details" details_slot) ;;
   mret (freq_experiments_g, freq_experiments_e, details))%M.

End RRFreqSpec.

(** ** Secondary sweeps *)

(** An argument documented as a float or an array; an [int] also arrives. *)
Inductive scalar_or_array : Type :=
| OfInt (n : Z)
| OfFloat (x : Q)
| OfArray (values : list Q).

(** [if isinstance(v, float): v = np.array([v])] followed by [for x in v]. *)
Definition as_iterable (v : scalar_or_array) : result (list Q) :=
  match v with
  | OfFloat x => ret [x]
  | OfArray l => ret l
  | OfInt _ => raise (TypeError "'int' object is not iterable")
  end.

(** [get_closest_multiple_of_16(get_dt_from(sec, dt))] *)
Definition quantized_ticks (sec dt : Q) : result Z :=
  (ticks <- get_dt_from sec dt ;;
   get_closest_multiple_of_16 (inject_Z ticks))%result.

Definition ns : Q := 1000000000.

(** ** Generalised Ramsey T2 ([helpers.py], lines 217-282) *)

Definition ramsey_inner_body (qubit : Z) (dt : Q) (sx_pulse : Pulse)
    (freq_detuning : Q) (meas_block : option ScheduleBlock)
    (buffer_duration delay_dur_dt : Z)
    (ramsey_delay_sec : Q) (ramsey_t2_experiments : list ScheduleBlock)
  : M (list ScheduleBlock) :=
  (ramsey_delay_dur <- lift (quantized_ticks ramsey_delay_sec dt) ;;
   ramsey_t2_sched <-
     pulse.build
       [Lit "long ramsey t2, delay: ";
        Num (py_round (inject_Z ramsey_delay_dur * dt * ns) 1); Lit "ns"]
       (let qubit_chan := DriveChannel qubit in
        let meas_chan := MeasureChannel qubit in
        match meas_block with
        | Some block => pulse.call block
        | None => bret tt
        end ;;;
        pulse.delay (Bound delay_dur_dt) meas_chan
          [Lit "d delay ";
           Num (inject_Z (round_half_even (inject_Z delay_dur_dt * dt * ns)));
           Lit "ns"] ;;;
        (if negb (Qeq_bool freq_detuning 0)
         then pulse.shift_frequency (Bound freq_detuning) qubit_chan
         else bret tt) ;;;
        pulse.play sx_pulse qubit_chan [] ;;;
        pulse.delay (Bound ramsey_delay_dur) qubit_chan [] ;;;
        pulse.play sx_pulse qubit_chan [] ;;;
        pulse.delay (Bound buffer_duration) meas_chan
          [Lit "b delay ";
           Num (inject_Z (round_half_even (inject_Z buffer_duration * dt * ns)));
           Lit "ns"] ;;;
        pulse.measure qubit (MemorySlot qubit))%B ;;
   mret (ramsey_t2_experiments ++ [ramsey_t2_sched]))%M.

Definition ramsey_outer_body (qubit : Z) (dt : Q) (sx_pulse : Pulse)
    (freq_detuning : Q) (meas_block : option ScheduleBlock)
    (buffer_duration : Z) (ramsey_t2_linspace : list Q)
    (delay_dur_sec : Q) (big_experiments : list (list ScheduleBlock))
  : M (list (list ScheduleBlock)) :=
  (delay_dur_dt <- lift (quantized_ticks delay_dur_sec default_dt) ;;
   ramsey_t2_experiments <-
     for_each ramsey_t2_linspace
       (ramsey_inner_body qubit dt sx_pulse freq_detuning meas_block
          buffer_duration delay_dur_dt) [] ;;
   mret (big_experiments ++ [ramsey_t2_experiments]))%M.

(** The primary sweep: [inp_linspace] when given, else
    [np.linspace(0.0, num_periods / freq_detuning,
                 num_periods * points_per_period + 1)]. *)
Definition ramsey_linspace (freq_detuning : Q) (num_periods points_per_period : Z)
    (inp_linspace : option (list Q)) : result (list Q) :=
  match inp_linspace with
  | Some l => ret l
  | None =>
      if Qeq_bool freq_detuning 0
      then raise (ZeroDivisionError "float division by zero")
      else np_linspace 0 (inject_Z num_periods / freq_detuning)
             (num_periods * points_per_period + 1)
  end.

Definition general_ramsey_t2_experiment (qubit : Z) (backend : Backend)
    (freq_detuning : Q) (num_periods points_per_period : Z)
    (meas_block : option ScheduleBlock) (buffer_duration : Q)
    (delay_duration_sec : scalar_or_array) (inp_linspace : option (list Q))
  : M (list (list ScheduleBlock) * list Q) :=
  (ramsey_t2_linspace <-
     lift (ramsey_linspace freq_detuning num_periods points_per_period
             inp_linspace) ;;
   single_q_dict <- get_single_qubit_pulses qubit backend ;;
   let sx_pulse := dict_sx_pulse single_q_dict in
   let dt := dt backend in
   buffer_duration <- lift (get_closest_multiple_of_16 buffer_duration) ;;
   delay_duration_sec <- lift (as_iterable delay_duration_sec) ;;
   big_experiments <-
     for_each delay_duration_sec
       (ramsey_outer_body qubit dt sx_pulse freq_detuning meas_block
          buffer_duration ramsey_t2_linspace) [] ;;
   mret (big_experiments, ramsey_t2_linspace))%M.

(** ** AC-Stark photon-number spectroscopy
       ([helpers.py], lines 285-438; [experiments.py], lines 78-178) *)

Definition freq : string := "freq".
Definition meas_delay : string := "meas delay".

(** The nested loop that closes each of the three AC-Stark builders:
    one [assign_parameters] per grid point, appended to [big_exp]. *)
Definition ac_stark_inner_body (q_freq_spec_sched : ScheduleBlock) (m_delay : Z)
    (f : Q) (big_exp : list ScheduleBlock) : M (list ScheduleBlock) :=
  (bound <- lift (assign_parameters
                    [(freq, PyFloat f); (meas_delay, PyInt m_delay)]
                    q_freq_spec_sched) ;;
   mret (big_exp ++ [bound]))%M.

Definition ac_stark_outer_body (q_freq_spec_sched : ScheduleBlock)
    (freq_linspace : list Q) (m_delay : Q) (big_exp : list ScheduleBlock)
  : M (list ScheduleBlock) :=
  (m_delay <- lift (quantized_ticks m_delay default_dt) ;;
   for_each freq_linspace (ac_stark_inner_body q_freq_spec_sched m_delay) big_exp)%M.

Definition ac_stark_grid (q_freq_spec_sched : ScheduleBlock)
    (meas_delay_sec : scalar_or_array) (freq_linspace : list Q)
  : M (list ScheduleBlock) :=
  (meas_delay_sec <- lift (as_iterable meas_delay_sec) ;;
   for_each meas_delay_sec (ac_stark_outer_body q_freq_spec_sched freq_linspace) [])%M.


(** The block of [improved_ac_stark_photon_experiment]; [meas_pulse] is
    the slot the caller's frame holds for the measurement pulse, read by
    the first [pulse.play]. *)
Definition aligned_template (qubit : Z) (unbound : exception)
    (meas_pulse : option Pulse) (qubit_amp : Q)
    (qubit_duration qubit_sigma_sec delay_duration_dt buffer_delay_duration : Q)
  : B unit :=
  (let qubit_chan := DriveChannel qubit in
   let meas_chan := MeasureChannel qubit in
   drive_duration <- blift (get_closest_multiple_of_16 qubit_duration) ;;
   drive_sigma <- blift (quantized_ticks qubit_sigma_sec default_dt) ;;
   delay_dur <- blift (get_closest_multiple_of_16 delay_duration_dt) ;;
   pulse.shift_frequency (Free freq) qubit_chan ;;;
   pulse.align_right
     (p <- blift (match meas_pulse with
                  | Some p => ret p
                  | None => raise unbound
                  end) ;;
      pulse.play p meas_chan [Lit "m pulse"] ;;;
      pulse.delay (Free meas_delay) meas_chan [Lit "m delay"] ;;;
      pulse.play (Gaussian drive_duration qubit_amp (inject_Z drive_sigma) 0)
        qubit_chan [Lit "q tone"] ;;;
      pulse.delay (Bound delay_dur) qubit_chan []) ;;;
   buffer <- blift (get_closest_multiple_of_16 buffer_delay_duration) ;;
   pulse.delay (Bound buffer) meas_chan [Lit "b delay"] ;;;
   pulse.measure qubit (MemorySlot qubit))%B.

Definition improved_ac_stark_photon_experiment (qubit : Z) (backend : Backend)
    (freq_linspace : list Q) (meas_amp qubit_amp : Q)
    (meas_duration qubit_duration buffer_delay_duration : Q)
    (meas_delay_sec : scalar_or_array) (qubit_sigma_sec : Q)
    (mode : string) (delay_duration_dt : Q)
  : M (list ScheduleBlock) :=
  (single_q_dict <- get_single_qubit_pulses qubit backend ;;
   let measure_pulse := dict_meas_pulse single_q_dict in
   meas_duration <- lift (get_closest_multiple_of_16 meas_duration) ;;
   meas_sigma <- lift (pulse_sigma measure_pulse) ;;
   let meas_width := (inject_Z meas_duration - 4 * meas_sigma)%Q in
   let meas_pulse : option Pulse := None in
   let meas_pulse :=
     if String.eqb mode "gaussian_square"
     then Some (GaussianSquare meas_duration meas_amp meas_sigma meas_width
                  (pulse_angle measure_pulse))
     else meas_pulse in
   let meas_pulse :=
     if String.eqb mode "rectangular"
     then Some (Constant meas_duration meas_amp (pulse_angle measure_pulse))
     else meas_pulse in
   q_freq_spec_sched <-
     pulse.build [Lit "Qubit Freq Spec"]
       (aligned_template qubit (UnboundLocalError "meas_pulse") meas_pulse
          qubit_amp qubit_duration qubit_sigma_sec delay_duration_dt
          buffer_delay_duration) ;;
   ac_stark_grid q_freq_spec_sched meas_delay_sec freq_linspace)%M.

(** [repr] of a list of plain strings. *)
Fixpoint py_repr_items (l : list string) : string :=
  match l with
  | [] => ""
  | [s] => "'" ++ s ++ "'"
  | s :: rest => "'" ++ s ++ "', " ++ py_repr_items rest
  end%string.

Definition py_repr_list (l : list string) : string :=
  ("[" ++ py_repr_items l ++ "]")%string.

Module ACStarkPhoton.

Record t : Type := mk {
  measure_pulse : Pulse;
  meas_pulse : option Pulse;
  qubit : Z;
  backend : Backend;
  freq_linspace : list Q;
  meas_amp : Q;
  qubit_amp : Q;
  meas_duration : Z;
  qubit_duration : Q;
  buffer_delay_duration : Q;
  meas_delay_sec : scalar_or_array;
  qubit_sigma_sec : Q;
  mode : string;
  delay_duration_dt : Q
}.

Definition supported_modes : list string := ["gaussian_square"; "gaussian"]%string.

Definition __init__ (library : Library) (qubit : Z) (backend : Backend)
    (freq_linspace : list Q) (meas_amp qubit_amp : Q)
    (meas_duration qubit_duration buffer_delay_duration : Q)
    (meas_delay_sec : scalar_or_array) (qubit_sigma_sec : Q)
    (mode : string) (delay_duration_dt : Q) : M t :=
  (single_q_dict <- get_single_qubit_pulses qubit backend ;;
   let self_measure_pulse := dict_meas_pulse single_q_dict in
   meas_duration <- lift (get_closest_multiple_of_16 meas_duration) ;;
   meas_sigma <- lift (pulse_sigma self_measure_pulse) ;;
   let meas_width := (inject_Z meas_duration - 4 * meas_sigma)%Q in
   if negb (existsb (String.eqb mode) supported_modes) then
     mraise (ValueError ("input mode: " ++ mode
                         ++ " is not supported, valid modes are "
                         ++ py_repr_list supported_modes))
   else
     let self_meas_pulse : option Pulse := None in
     self_meas_pulse <-
       (if String.eqb mode "gaussian_square"
        then p <- lift (pulse.construct library
                          (GaussianSquare meas_duration meas_amp meas_sigma
                             meas_width 0)) ;;
             mret (Some p)
        else mret self_meas_pulse) ;;
     self_meas_pulse <-
       (if String.eqb mode "gaussian"
        then p <- lift (pulse.construct library
                          (Gaussian meas_duration meas_amp meas_sigma 0)) ;;
             mret (Some p)
        else mret self_meas_pulse) ;;
     mret (mk self_measure_pulse self_meas_pulse qubit backend freq_linspace
             meas_amp qubit_amp meas_duration qubit_duration
             buffer_delay_duration meas_delay_sec qubit_sigma_sec mode
             delay_duration_dt))%M.

(** The block of [get_jobs] ([experiments.py], lines 139-163); the drive
    pulse is constructed, and validated, between the delay and the play
    that takes it. *)
Definition template (library : Library) (self : t) : B unit :=
  (let qubit_chan := DriveChannel (qubit self) in
   let meas_chan := MeasureChannel (qubit self) in
   drive_duration <- blift (get_closest_multiple_of_16 (qubit_duration self)) ;;
   drive_sigma <- blift (quantized_ticks (qubit_sigma_sec self) default_dt) ;;
   delay_dur <- blift (get_closest_multiple_of_16 (delay_duration_dt self)) ;;
   pulse.shift_frequency (Free freq) qubit_chan ;;;
   pulse.align_right
     (p <- blift (match meas_pulse self with
                  | Some p => ret p
                  | None => raise (AttributeError "meas_pulse")
                  end) ;;
      pulse.play p meas_chan [Lit "m pulse"] ;;;
      pulse.delay (Free meas_delay) meas_chan [Lit "m delay"] ;;;
      tone <- blift (pulse.construct library
                       (Gaussian drive_duration (qubit_amp self)
                          (inject_Z drive_sigma) 0)) ;;
      pulse.play tone qubit_chan [Lit "q tone"] ;;;
      pulse.delay (Bound delay_dur) qubit_chan []) ;;;
   buffer <- blift (get_closest_multiple_of_16 (buffer_delay_duration self)) ;;
   pulse.delay (Bound buffer) meas_chan [Lit "b delay"] ;;;
   pulse.measure (qubit self) (MemorySlot (qubit self)))%B.

(** [get_jobs] assigns [meas_delay_sec] further down, which makes the name
    local to the method; nothing has assigned it when [isinstance] reads
    it, so the frame's slot is empty there.  The constructor's value lives
    in [self.meas_delay_sec], which the method never reads. *)
Definition get_jobs (library : Library) (self : t) : M (list ScheduleBlock) :=
  (q_freq_spec_sched <-
     pulse.build [Lit "AC Starks Freq Spec"] (template library self) ;;
   let meas_delay_sec_local : option scalar_or_array := None in
   meas_delay_sec <- lift (read_local "meas_delay_sec" meas_delay_sec_local) ;;
   ac_stark_grid q_freq_spec_sched meas_delay_sec (freq_linspace self))%M.

End ACStarkPhoton.

(** ** Vocabulary of the statements *)

(** The value [get_closest_multiple_of_16] returns. *)
Definition grid16 (num : Q) : Z :=
  py_int (num + inject_Z 16 / 2) - py_int (num + inject_Z 16 / 2) mod 16.

(** The instructions of a sequence, and of a batch in batch order. *)
Definition ops_of (schedule : Schedule) : list Instruction :=
  map snd (instructions schedule).

Definition ops_of_job (job : list Schedule) : list Instruction :=
  flat_map ops_of job.

Definition acq_durations (ops : list Instruction) : list Z :=
  map duration (filter is_Acquire ops).

Definition play_durations (ops : list Instruction) : list Z :=
  map duration (filter is_Play ops).

(** How many acquisition instructions a sequence holds. *)
Definition acquisitions (schedule : Schedule) : nat :=
  List.length (filter is_Acquire (ops_of schedule)).

Definition nonzero_multiple_of_16 (d : Z) : Prop := d mod 16 = 0 /\ d <> 0.

Definition positive_multiple_of_16 (d : Z) : Prop := d mod 16 = 0 /\ 0 < d.

(** [op] is an instruction of some sequence of [job]. *)
Definition in_job (op : Instruction) (job : list Schedule) : Prop :=
  exists schedule t, In schedule job /\ In (t, op) (instructions schedule).

Definition nonempty (schedule : Schedule) : Prop :=
  instructions schedule <> [].

Definition delay_durations (ops : list Instruction) : list Z :=
  map duration (filter is_Delay ops).

(** Every play instruction of the batch passes the two timing tests. *)
Definition plays_on_grid (job : list Schedule) : Prop :=
  Forall nonzero_multiple_of_16 (play_durations (ops_of_job job)).

(** Every delay instruction of the batch lasts a multiple of 16 samples. *)
Definition delays_on_grid (job : list Schedule) : Prop :=
  Forall (fun d => d mod 16 = 0) (delay_durations (ops_of_job job)).

(** The verdicts of the validator, by the kind the specification gives
    them. *)
Definition timing_error (r : result unit) : Prop :=
  r = raise (ValueError Checker.msg_not_divisible)
  \/ r = raise (ValueError Checker.msg_zero).

Definition malformed_sequence_error (r : result unit) : Prop :=
  r = raise (ValueError Checker.msg_count).

Definition inconsistent_acquisition_error (r : result unit) : Prop :=
  r = raise (ValueError Checker.msg_not_identical)
  \/ r = raise (ValueError Checker.msg_acq_multiple).

(** The value [quantized_ticks sec dt] returns when [dt] is not zero. *)
Definition ticks (sec dt : Q) : Z := grid16 (inject_Z (grid16 (sec / dt))).

(** [d[key]] on a dictionary. *)
Fixpoint lookup (key : string) (d : details_dict) : option Q :=
  match d with
  | [] => None
  | (k, v) :: rest => if String.eqb k key then Some v else lookup key rest
  end.

(** The backend's catalog answers for [qubit] with the dictionary [d]. *)
Definition catalog_gives (qubit : Z) (backend : Backend)
    (d : single_qubit_rr_dict) : Prop :=
  fst (run (get_single_qubit_pulses qubit backend)) = inr d.

(** The two sequences frequency spectroscopy builds for one shift. *)
Definition ground_sequence (qubit : Z) (freq_shift : Q) : ScheduleBlock :=
  mkScheduleBlock
    [Lit "freq spec g, shift: "; Num (py_round (freq_shift / MHz) 3); Lit "MHz"]
    [ShiftFrequency (Bound freq_shift) (MeasureChannel qubit);
     Measure qubit (MemorySlot qubit)].

Definition excited_sequence (qubit : Z) (x_pulse : Pulse) (freq_shift : Q)
  : ScheduleBlock :=
  mkScheduleBlock
    [Lit "freq spec e, shift: "; Num (py_round (freq_shift / MHz) 3); Lit "MHz"]
    [ShiftFrequency (Bound freq_shift) (MeasureChannel qubit);
     Play x_pulse (DriveChannel qubit) [];
     Measure qubit (MemorySlot qubit)].

(** The dictionary frequency spectroscopy reports after [n] sweep points,
    for a sweep that starts [f0, f1, ...] and ends with [flast]. *)
Definition sweep_details (n : nat) (f0 f1 flast : Q) : details_dict :=
  [ ("Total Experiment Size"%string, inject_Z (Z.of_nat (n + n)));
    ("Frequency Step Size (MHz)"%string, py_round ((f1 - f0) / MHz) 3);
    ("Frequency Span (MHz)"%string, py_round ((flast - f0) / MHz) 3) ].

(** What one pass through the body of the spectroscopy loop does to the
    loop variables, for a sweep that starts [f0, f1, ...] and ends with
    [flast]. *)
Definition freq_spec_step (qubit : Z) (x_pulse : Pulse) (f0 f1 flast : Q)
    (freq_shift : Q) (st : freq_spec_state) : freq_spec_state :=
  let '(g, e, _) := st in
  let g' := g ++ [ground_sequence qubit freq_shift] in
  let e' := e ++ [excited_sequence qubit x_pulse freq_shift] in
  (g', e',
   Some [ ("Total Experiment Size"%string,
           inject_Z (Z.of_nat (List.length g' + List.length e')));
          ("Frequency Step Size (MHz)"%string, py_round ((f1 - f0) / MHz) 3);
          ("Frequency Span (MHz)"%string, py_round ((flast - f0) / MHz) 3) ]).

(** The Ramsey sequence for a delay of [delay_dur_dt] samples before the
    first half-inversion and [ramsey_delay_dur] samples between the two. *)
Definition ramsey_sequence (qubit : Z) (dt : Q) (sx_pulse : Pulse)
    (freq_detuning : Q) (meas_block : option ScheduleBlock)
    (buffer_duration delay_dur_dt ramsey_delay_dur : Z) : ScheduleBlock :=
  mkScheduleBlock
    [Lit "long ramsey t2, delay: ";
     Num (py_round (inject_Z ramsey_delay_dur * dt * ns) 1); Lit "ns"]
    (match meas_block with
     | Some block => [Call (blocks block)]
     | None => []
     end
     ++ [Delay (Bound delay_dur_dt) (MeasureChannel qubit)
           [Lit "d delay ";
            Num (inject_Z (round_half_even (inject_Z delay_dur_dt * dt * ns)));
            Lit "ns"]]
     ++ (if negb (Qeq_bool freq_detuning 0)
         then [ShiftFrequency (Bound freq_detuning) (DriveChannel qubit)]
         else [])
     ++ [Play sx_pulse (DriveChannel qubit) [];
         Delay (Bound ramsey_delay_dur) (DriveChannel qubit) [];
         Play sx_pulse (DriveChannel qubit) [];
         Delay (Bound buffer_duration) (MeasureChannel qubit)
           [Lit "b delay ";
            Num (inject_Z (round_half_even (inject_Z buffer_duration * dt * ns)));
            Lit "ns"];
         Measure qubit (MemorySlot qubit)]).




(** The measurement pulse [ACStarkPhoton.__init__] asks the library for,
    in each of its two modes. *)
Definition class_meas_pulse (mode : string) (meas_amp meas_duration sigma : Q)
  : Pulse :=
  if String.eqb mode "gaussian"
  then Gaussian (grid16 meas_duration) meas_amp sigma 0
  else GaussianSquare (grid16 meas_duration) meas_amp sigma
         (inject_Z (grid16 meas_duration) - 4 * sigma) 0.



(** ** Sample data *)

Module Samples.

Definition tone (d : Z) : Pulse := Constant d (1 # 2) 0.

Definition play_on_drive (d : Z) : Instruction :=
  Play (tone d) (DriveChannel 0) [].

Definition wait (d : Z) : Instruction :=
  Delay (Bound d) (MeasureChannel 0) [].

Definition acquire (d : Z) : Instruction := Acquire d 0 (MemorySlot 0).

(** A sequence holding [ops], all starting at time [0]. *)
Definition sequence (ops : list Instruction) : Schedule :=
  mkSchedule [Lit "sample"] (map (fun op => (0, op)) ops).

(** One sequence with two acquisitions; plays and delays on the grid. *)
Definition job_two_acquisitions : list Schedule :=
  [sequence [play_on_drive 16; wait 16; acquire 512; acquire 512]].

(** A delay of 8 samples, everything else in order. *)
Definition job_short_delay : list Schedule :=
  [sequence [play_on_drive 16; wait 8; acquire 512]].

(** A sequence without acquisition next to one with two. *)
Definition job_counts_cancel : list Schedule :=
  [sequence [play_on_drive 16];
   sequence [play_on_drive 16; acquire 512; acquire 512]].

(** One acquisition of 512, after a play of no samples. *)
Definition job_zero_play : list Schedule :=
  [sequence [play_on_drive 0; acquire 512]].

(** One acquisition per sequence, windows [512, 512, 528]. *)
Definition job_mixed_windows : list Schedule :=
  [sequence [play_on_drive 16; acquire 512];
   sequence [play_on_drive 32; wait 16; acquire 512];
   sequence [play_on_drive 16; acquire 528]].

(** One acquisition of 512 per sequence. *)
Definition job_uniform : list Schedule :=
  [sequence [play_on_drive 16; acquire 512];
   sequence [play_on_drive 32; wait 16; acquire 512];
   sequence [play_on_drive 16; acquire 512]].

End Samples.

Module SampleBackend.

Definition measure_schedule : Schedule :=
  mkSchedule [Lit "measure"]
    [(0, Acquire 1440 0 (MemorySlot 0));
     (0, Play (GaussianSquare 1440 (1 # 4) 64 1184 0) (MeasureChannel 0) []);
     (1440, Delay (Bound 1568) (MeasureChannel 0) [])].

Definition x_schedule : Schedule :=
  mkSchedule [Lit "x"]
    [(0, Play (Calibrated "x" 160 40 0) (DriveChannel 0) [])].

Definition sx_schedule : Schedule :=
  mkSchedule [Lit "sx"]
    [(0, Play (Calibrated "sx" 160 40 0) (DriveChannel 0) [])].

Definition backend : Backend :=
  mkBackend (2 # 9000000000)
    (fun gate _ =>
       if String.eqb gate "measure" then measure_schedule
       else if String.eqb gate "x" then x_schedule
       else sx_schedule).

Definition pulses : single_qubit_rr_dict :=
  mk_single_qubit_rr_dict
    (Calibrated "x" 160 40 0) (Calibrated "sx" 160 40 0)
    (GaussianSquare 1440 (1 # 4) 64 1184 0)
    (Delay (Bound 1568) (MeasureChannel 0) []).

(** A pulse library that enforces the amplitude limit of 1 and refuses a
    flat top of negative width. *)
Definition library : Library :=
  mkLibrary (fun p =>
    match p with
    | Gaussian _ amp _ _ => Qle_bool (Qabs amp) 1
    | GaussianSquare _ amp _ width _ =>
        Qle_bool (Qabs amp) 1 && Qle_bool 0 width
    | Constant _ amp _ => Qle_bool (Qabs amp) 1
    | Calibrated _ _ _ _ => true
    end).

End SampleBackend.


(** ** Integrated and QND fidelity ([helpers.py], lines 169-214) *)

Definition integrated_fidelity_experiment (qubit : Z) (backend : Backend)
  : M (list ScheduleBlock * list ScheduleBlock) :=
  (let ge_experiment : list ScheduleBlock := [] in
   let qnd_experiment : list ScheduleBlock := [] in
   single_q_dict <- get_single_qubit_pulses qubit backend ;;
   let x_pulse := dict_x_pulse single_q_dict in
   let meas_pulse := dict_meas_pulse single_q_dict in
   let meas_delay := dict_meas_delay single_q_dict in
   meas_g_sched <-
     pulse.build [Lit "meas g"]
       (pulse.measure qubit (MemorySlot qubit)) ;;
   let ge_experiment := ge_experiment ++ [meas_g_sched] in
   meas_e_sched <-
     pulse.build [Lit "meas e"]
       (let qubit_chan := DriveChannel qubit in
        pulse.play x_pulse qubit_chan [] ;;;
        pulse.measure qubit (MemorySlot qubit))%B ;;
   let ge_experiment := ge_experiment ++ [meas_e_sched] in
   let meas_chan := MeasureChannel qubit in
   qnd_g_sched <-
     pulse.build [Lit "qnd g"]
       (pulse.play meas_pulse meas_chan [] ;;;
        pulse.delay (Bound (duration meas_delay)) meas_chan [] ;;;
        pulse.measure qubit (MemorySlot qubit))%B ;;
   let qnd_experiment := qnd_experiment ++ [qnd_g_sched] in
   qnd_e_sched <-
     pulse.build [Lit "qnd e"]
       (let qubit_chan := DriveChannel qubit in
        pulse.play x_pulse qubit_chan [] ;;;
        pulse.play meas_pulse meas_chan [] ;;;
        pulse.delay (Bound (duration meas_delay)) meas_chan [] ;;;
        pulse.measure qubit (MemorySlot qubit))%B ;;
   let qnd_experiment := qnd_experiment ++ [qnd_e_sched] in
   mret (ge_experiment, qnd_experiment))%M.

(** ** Further vocabulary *)

(** A sequence rescheduled: every start time goes through [shift] and
    every delay lasts [stretch] of what it did. *)
Definition retime_op (stretch : Z -> Z) (op : Instruction) : Instruction :=
  match op with
  | Delay (Bound d) ch name => Delay (Bound (stretch d)) ch name
  | other => other
  end.

Definition retime (shift stretch : Z -> Z) (schedule : Schedule) : Schedule :=
  mkSchedule (schedule_name schedule)
    (map (fun timed => (shift (fst timed), retime_op stretch (snd timed)))
       (instructions schedule)).


(** * Properties *)

(** ** Truncation and the grid *)

Lemma py_int_inject_Z (n : Z) : py_int (inject_Z n) = n.
Proof. unfold py_int; simpl. apply Z.quot_1_r. Qed.

Lemma py_int_nonneg_floor (x : Q) : (0 <= x)%Q -> py_int x = Qfloor x.
Proof.
  destruct x as [n d]; unfold Qle, py_int, Qfloor; simpl; intros H.
  apply Z.quot_div_nonneg; lia.
Qed.

Lemma py_int_nonpos_ceiling (x : Q) : (x <= 0)%Q -> py_int x = Qceiling x.
Proof.
  destruct x as [n d]; unfold Qle, py_int, Qceiling, Qfloor; simpl; intros H.
  rewrite <- (Z.opp_involutive n) at 1.
  rewrite Z.quot_opp_l by lia. f_equal.
  apply Z.quot_div_nonneg; lia.
Qed.

(** [int] does not see how a number is written as a fraction. *)
Lemma py_int_Qeq (x y : Q) : (x == y)%Q -> py_int x = py_int y.
Proof.
  intros H. destruct (Qlt_le_dec x 0) as [Hneg | Hpos].
  - rewrite !py_int_nonpos_ceiling.
    + now rewrite H.
    + rewrite <- H. now apply Qlt_le_weak.
    + now apply Qlt_le_weak.
  - rewrite !py_int_nonneg_floor.
    + now rewrite H.
    + now rewrite <- H.
    + exact Hpos.
Qed.

(** With a non-zero base the quantizer returns, and what it returns is the
    truncated shifted value minus its remainder. *)
Lemma get_closest_multiple_of_ret (value : Q) (base_number : Z) :
  base_number <> 0 ->
  get_closest_multiple_of value base_number
  = ret (py_int (value + inject_Z base_number / 2)
         - py_int (value + inject_Z base_number / 2) mod base_number).
Proof.
  intros Hb. unfold get_closest_multiple_of, py_mod.
  destruct (Z.eqb_spec base_number 0) as [E | _]; [contradiction | reflexivity].
Qed.

Lemma get_closest_multiple_of_16_ret (num : Q) :
  get_closest_multiple_of_16 num = ret (grid16 num).
Proof. apply get_closest_multiple_of_ret. discriminate. Qed.

Lemma grid16_divisible (num : Q) : grid16 num mod 16 = 0.
Proof.
  unfold grid16. set (n := py_int _).
  rewrite Zminus_mod_idemp_r, Z.sub_diag. reflexivity.
Qed.

(** On an integer sample count the quantizer stays within the integers:
    it adds 8 and clears the remainder modulo 16. *)
Lemma get_closest_multiple_of_16_on_integers (n : Z) :
  get_closest_multiple_of_16 (inject_Z n) = ret ((n + 8) - (n + 8) mod 16).
Proof.
  rewrite get_closest_multiple_of_16_ret. unfold grid16.
  assert (E : (inject_Z n + inject_Z 16 / 2 == inject_Z (n + 8))%Q).
  { rewrite inject_Z_plus. apply Qplus_comp; reflexivity. }
  now rewrite (py_int_Qeq _ _ E), py_int_inject_Z.
Qed.

(** ** Binary64 arithmetic on integers *)

Lemma digits2_pos_log2 (p : positive) :
  Zpos (digits2_pos p) = Z.log2 (Zpos p) + 1.
Proof.
  assert (E : digits2_pos p = Pos.size p) by (induction p; simpl; congruence).
  rewrite E.
  change (Zpos (Pos.size p)) with (Z.log2 (Zpos p~0)).
  change (Zpos p~0) with (2 * Zpos p).
  rewrite Z.log2_double by lia. lia.
Qed.

Lemma digits2_pos_bounds (a : positive) (b : Z) :
  Zpos a < 2 ^ b -> 1 <= Zpos (digits2_pos a) <= b.
Proof.
  intros H. rewrite digits2_pos_log2.
  assert (0 <= Z.log2 (Zpos a)) by apply Z.log2_nonneg.
  assert (0 < b). { destruct b; simpl in H; try lia. }
  assert (Z.log2 (Zpos a) < b) by (apply Z.log2_lt_pow2; lia).
  lia.
Qed.

Lemma digits2_pos_scaled (m a : positive) (k : Z) :
  0 <= k -> Zpos m = Zpos a * 2 ^ k ->
  Zpos (digits2_pos m) = Zpos (digits2_pos a) + k.
Proof.
  intros Hk E. rewrite !digits2_pos_log2, E, Z.log2_mul_pow2 by lia. lia.
Qed.

Lemma iter_xO_scaled (m q : positive) :
  Zpos (Pos.iter xO m q) = Zpos m * 2 ^ Zpos q.
Proof.
  revert m. induction q using Pos.peano_ind; intros m.
  - simpl Pos.iter. rewrite Z.pow_1_r. lia.
  - rewrite Pos.iter_succ, Pos2Z.inj_succ, Z.pow_succ_r by lia.
    change (Zpos (Pos.iter xO m q)~0) with (2 * Zpos (Pos.iter xO m q)).
    rewrite IHq. ring.
Qed.

Lemma shr_1_double (x : Z) :
  shr_1 (Build_shr_record (2 * x) false false) = Build_shr_record x false false.
Proof. destruct x; reflexivity. Qed.

Lemma pow2_xO (t : positive) : 2 ^ Zpos t~0 = 2 ^ Zpos t * 2 ^ Zpos t.
Proof.
  replace (Zpos t~0) with (Zpos t + Zpos t) by lia.
  now rewrite Z.pow_add_r by lia.
Qed.

Lemma pow2_xI (t : positive) : 2 ^ Zpos t~1 = 2 * (2 ^ Zpos t * 2 ^ Zpos t).
Proof.
  replace (Zpos t~1) with (Z.succ (Zpos t + Zpos t)) by lia.
  now rewrite Z.pow_succ_r, Z.pow_add_r by lia.
Qed.

Lemma iter_pos_shr_1_scaled (t : positive) :
  forall x : Z,
    iter_pos shr_1 t (Build_shr_record (x * 2 ^ Zpos t) false false)
    = Build_shr_record x false false.
Proof.
  induction t; intros x; cbn [iter_pos].
  - replace (x * 2 ^ Zpos t~1) with (2 * ((x * 2 ^ Zpos t) * 2 ^ Zpos t))
      by (rewrite pow2_xI; ring).
    now rewrite shr_1_double, !IHt.
  - replace (x * 2 ^ Zpos t~0) with ((x * 2 ^ Zpos t) * 2 ^ Zpos t)
      by (rewrite pow2_xO; ring).
    now rewrite !IHt.
  - rewrite Z.pow_1_r, Z.mul_comm. apply shr_1_double.
Qed.

Lemma fexp_normal (x : Z) : -1021 <= x -> fexp Binary64.prec Binary64.emax x = x - 53.
Proof. intros H. unfold fexp, emin, Binary64.prec, Binary64.emax. lia. Qed.

(** Second rounding pass on a significand of exactly 53 bits: nothing moves. *)
Lemma shr_fexp_full (mz : positive) (e : Z) :
  Zpos (digits2_pos mz) = 53 -> -1074 <= e ->
  shr_fexp Binary64.prec Binary64.emax (Zpos mz) e loc_Exact
  = (Build_shr_record (Zpos mz) false false, e).
Proof.
  intros Hd He. unfold shr_fexp. simpl Zdigits2. rewrite Hd, fexp_normal by lia.
  replace (53 + e - 53 - e) with 0 by lia. reflexivity.
Qed.

Lemma binary_round_aux_full (s : bool) (mz : positive) (e : Z) :
  Zpos (digits2_pos mz) = 53 -> -1074 <= e <= 971 ->
  binary_round_aux Binary64.prec Binary64.emax s (Zpos mz) e loc_Exact = S754_finite s mz e.
Proof.
  intros Hd He. unfold binary_round_aux.
  rewrite shr_fexp_full by lia. simpl round_nearest_even.
  rewrite shr_fexp_full by lia. simpl shr_m.
  replace (e <=? Binary64.emax - Binary64.prec) with true; [reflexivity |].
  symmetry. apply Z.leb_le. unfold Binary64.emax, Binary64.prec. lia.
Qed.

(** Rounding a value that fits in 53 bits: the result is the value, with its
    significand shifted to 53 bits. *)
Lemma binary_round_exact (s : bool) (m a : positive) (k e : Z) :
  0 <= k -> Zpos m = Zpos a * 2 ^ k -> Zpos a < 2 ^ 53 ->
  -1000 <= e + k <= 900 ->
  exists (m' : positive) (j : Z),
    binary_round Binary64.prec Binary64.emax s m e = S754_finite s m' (e + k - j)
    /\ 0 <= j <= 52 /\ Zpos m' = Zpos a * 2 ^ j
    /\ Zpos (digits2_pos m') = 53.
Proof.
  intros Hk Em Ha He.
  pose proof (digits2_pos_bounds a 53 Ha) as Hd.
  pose proof (digits2_pos_scaled m a k Hk Em) as Hm.
  set (d := Zpos (digits2_pos a)) in *.
  unfold binary_round. rewrite Hm, fexp_normal by lia.
  unfold shl_align.
  destruct (d + k + e - 53 - e) as [| t | q] eqn:Et.
  - (* the significand has 53 bits already *)
    exists m, k. rewrite binary_round_aux_full by lia.
    split; [f_equal; lia | repeat split; lia].
  - (* more than 53 bits: the low bits, all zero, are shifted out *)
    assert (Hj : 0 <= 53 - d) by lia.
    assert (Epos : 0 < Zpos a * 2 ^ (53 - d))
      by (apply Z.mul_pos_pos; [lia | apply Z.pow_pos_nonneg; lia]).
    destruct (Zpos a * 2 ^ (53 - d)) as [| m' |] eqn:Em'; try lia.
    exists m', (53 - d).
    assert (Hd' : Zpos (digits2_pos m') = 53).
    { rewrite (digits2_pos_scaled m' a (53 - d)) by lia. fold d. lia. }
    split; [| repeat split; lia].
    unfold binary_round_aux.
    assert (E1 : shr_fexp Binary64.prec Binary64.emax (Zpos m) e loc_Exact
                 = (Build_shr_record (Zpos m') false false, e + k - (53 - d))).
    { unfold shr_fexp. simpl Zdigits2. rewrite Hm. fold d. rewrite fexp_normal by lia.
      replace (d + k + e - 53 - e) with (Zpos t) by lia.
      simpl shr_record_of_loc. unfold shr.
      replace (Zpos m) with (Zpos m' * 2 ^ Zpos t).
      - rewrite iter_pos_shr_1_scaled. f_equal. lia.
      - rewrite Em, <- Em', <- Z.mul_assoc, <- Z.pow_add_r by lia. do 2 f_equal. lia. }
    rewrite E1. simpl round_nearest_even.
    rewrite shr_fexp_full by lia. simpl shr_m.
    replace (e + k - (53 - d) <=? Binary64.emax - Binary64.prec) with true; [reflexivity |].
    symmetry. apply Z.leb_le. unfold Binary64.emax, Binary64.prec. lia.
  - (* fewer than 53 bits: the significand is shifted up *)
    exists (Pos.iter xO m q), (53 - d).
    assert (Emz : Zpos (Pos.iter xO m q) = Zpos a * 2 ^ (53 - d)).
    { rewrite iter_xO_scaled, Em, <- Z.mul_assoc, <- Z.pow_add_r by lia.
      do 2 f_equal. lia. }
    assert (Hdz : Zpos (digits2_pos (Pos.iter xO m q)) = 53).
    { rewrite (digits2_pos_scaled _ a (53 - d)) by lia. fold d. lia. }
    rewrite binary_round_aux_full by lia.
    split; [f_equal; lia | repeat split; lia].
Qed.

(** *** Integers in binary64 *)

Lemma cond_Zopp_mul (s : bool) (x c : Z) :
  cond_Zopp s (x * c) = cond_Zopp s x * c.
Proof. destruct s; unfold cond_Zopp; ring. Qed.

Lemma shl_align_scaled (m : positive) (e e' : Z) :
  e' <= e -> Zpos (fst (shl_align m e e')) = Zpos m * 2 ^ (e - e').
Proof.
  intros H. unfold shl_align.
  destruct (e' - e) as [| t | q] eqn:E; cbn [fst].
  - replace (e - e') with 0 by lia. rewrite Z.pow_0_r. lia.
  - lia.
  - rewrite iter_xO_scaled. do 2 f_equal. lia.
Qed.

(** Normalizing [n * 2^k] at the exponent [- k - scale], where [n] fits in
    53 bits, yields the float of [n / 2^scale]. *)
Lemma binary_normalize_dyadic (scale n k : Z) :
  0 <= scale <= 1 -> 0 <= k <= 900 -> - 2 ^ 53 < n < 2 ^ 53 ->
  Binary64.dyadic scale
    (binary_normalize Binary64.prec Binary64.emax (n * 2 ^ k) (- k - scale)
       false) n.
Proof.
  intros Hs Hk Hn.
  assert (Hpow : 0 < 2 ^ k) by (apply Z.pow_pos_nonneg; lia).
  unfold binary_normalize.
  destruct (n * 2 ^ k) as [| m | m] eqn:Em.
  - unfold Binary64.dyadic. nia.
  - destruct n as [| a | a]; try nia.
    destruct (binary_round_exact false m a k (- k - scale))
      as (m' & j & E & Hj & Em' & Hd); try lia.
    rewrite E. unfold Binary64.dyadic, cond_Zopp.
    exists j. repeat split; lia.
  - destruct n as [| a | a]; try nia.
    destruct (binary_round_exact true m a k (- k - scale))
      as (m' & j & E & Hj & Em' & Hd); try lia.
    rewrite E. unfold Binary64.dyadic, cond_Zopp.
    exists j. change (Z.neg a) with (- Z.pos a). rewrite Z.mul_opp_l.
    repeat split; lia.
Qed.

Lemma of_int_holds (n : Z) :
  - 2 ^ 53 < n < 2 ^ 53 ->
  exists x, Binary64.of_int n = ret x /\ Binary64.holds x n.
Proof.
  intros Hn. unfold Binary64.of_int, Binary64.holds.
  pose proof (binary_normalize_dyadic 0 n 0 ltac:(lia) ltac:(lia) Hn) as H.
  rewrite Z.pow_0_r, Z.mul_1_r in H. change (- 0 - 0) with 0 in H.
  destruct (binary_normalize Binary64.prec Binary64.emax n 0 false) as [s | s | | s m e];
    try contradiction; eexists; split; try reflexivity; exact H.
Qed.

(** Floats of one scale add exactly while the sum fits in 53 bits. *)
Lemma SFadd_dyadic (scale : Z) (x y : spec_float) (a b : Z) :
  0 <= scale <= 1 ->
  Binary64.dyadic scale x a -> Binary64.dyadic scale y b ->
  - 2 ^ 53 < a + b < 2 ^ 53 ->
  Binary64.dyadic scale (SFadd Binary64.prec Binary64.emax x y) (a + b).
Proof.
  intros Hs Hx Hy Hsum.
  destruct x as [sx | sx | | sx mx ex]; try contradiction;
    destruct y as [sy | sy | | sy my ey]; try contradiction.
  - cbn in Hx, Hy. subst. destruct sx, sy; reflexivity.
  - cbn in Hx. subst a. exact Hy.
  - cbn in Hy. subst b. rewrite Z.add_0_r. exact Hx.
  - destruct Hx as (jx & -> & Hjx & Ex & _).
    destruct Hy as (jy & -> & Hjy & Ey & _).
    unfold SFadd.
    set (k := Z.max jx jy).
    replace (Z.min (- jx - scale) (- jy - scale)) with (- k - scale) by lia.
    assert (Hpx : 0 < 2 ^ (k - jx)) by (apply Z.pow_pos_nonneg; lia).
    match goal with
    | |- Binary64.dyadic _ (binary_normalize _ _ ?S _ _) _ =>
        replace S with ((a + b) * 2 ^ k)
    end.
    + apply binary_normalize_dyadic; lia.
    + rewrite !shl_align_scaled by lia.
      rewrite !cond_Zopp_mul, Ex, Ey.
      rewrite <- !Z.mul_assoc, <- !Z.pow_add_r by lia.
      replace (jx + (- jx - scale - (- k - scale))) with k by lia.
      replace (jy + (- jy - scale - (- k - scale))) with k by lia. ring.
Qed.

(** [int] of the float of [n / 2^scale]. *)
Lemma to_int_dyadic (scale : Z) (x : spec_float) (n : Z) :
  0 <= scale ->
  Binary64.dyadic scale x n ->
  Binary64.to_int x = ret (Z.quot n (2 ^ scale)).
Proof.
  intros Hs.
  assert (Hps : 0 < 2 ^ scale) by (apply Z.pow_pos_nonneg; lia).
  destruct x as [s | s | | s m e]; try contradiction; cbn.
  - intros ->. now rewrite Z.quot_0_l by lia.
  - intros (j & -> & Hj & E & _). f_equal.
    assert (Hpow : 0 < 2 ^ j) by (apply Z.pow_pos_nonneg; lia).
    rewrite <- Z.shiftr_opp_r, Z.shiftr_div_pow2 by lia.
    replace (- (- j - scale)) with (scale + j) by lia.
    rewrite Z.pow_add_r by lia.
    destruct s; unfold cond_Zopp in *.
    + replace (Z.pos m) with ((- n) * 2 ^ j) by lia.
      rewrite Z.div_mul_cancel_r by lia.
      rewrite <- Z.quot_div_nonneg by nia.
      rewrite Z.quot_opp_l by lia. lia.
    + rewrite E, Z.div_mul_cancel_r by lia.
      symmetry. apply Z.quot_div_nonneg; nia.
Qed.

Lemma to_int_holds (x : spec_float) (n : Z) :
  Binary64.holds x n -> Binary64.to_int x = ret n.
Proof.
  intros H. rewrite (to_int_dyadic 0 x n) by (lia || exact H).
  now rewrite Z.pow_0_r, Z.quot_1_r.
Qed.

(** *** Halving in binary64 *)

Lemma digits_53_bound (m : positive) :
  Zpos (digits2_pos m) = 53 -> 2 ^ 52 <= Zpos m < 2 ^ 53.
Proof.
  rewrite digits2_pos_log2. intros H.
  assert (Hl : Z.log2 (Zpos m) = 52) by lia.
  pose proof (Z.log2_spec (Zpos m) ltac:(lia)) as Hs.
  rewrite Hl in Hs. change (Z.succ 52) with 53 in Hs. exact Hs.
Qed.

(** A significand of 54 bits whose last bit is zero loses that bit and
    nothing else. *)
Lemma binary_round_aux_double (s : bool) (m : positive) (e : Z) :
  Zpos (digits2_pos m) = 53 -> -1075 <= e <= 970 ->
  binary_round_aux Binary64.prec Binary64.emax s (Zpos m~0) e loc_Exact
  = S754_finite s m (e + 1).
Proof.
  intros Hd He. unfold binary_round_aux.
  assert (E1 : shr_fexp Binary64.prec Binary64.emax (Zpos m~0) e loc_Exact
               = (Build_shr_record (Zpos m) false false, e + 1)).
  { unfold shr_fexp. cbn [Zdigits2 digits2_pos].
    rewrite Pos2Z.inj_succ, Hd, fexp_normal by lia.
    replace (Z.succ 53 + e - 53 - e) with 1 by lia. reflexivity. }
  rewrite E1. simpl round_nearest_even.
  rewrite shr_fexp_full by lia. simpl shr_m.
  replace (e + 1 <=? Binary64.emax - Binary64.prec) with true; [reflexivity |].
  symmetry. apply Z.leb_le. unfold Binary64.emax, Binary64.prec. lia.
Qed.

Lemma div_eucl_exact (a b : Z) : 0 < b -> Z.div_eucl (a * b) b = (a, 0).
Proof.
  intros Hb.
  assert (E : Z.div_eucl (a * b) b = ((a * b) / b, (a * b) mod b)).
  { unfold Z.div, Z.modulo. now destruct (Z.div_eucl (a * b) b). }
  rewrite E, Z.div_mul, Z.mod_mul by lia. reflexivity.
Qed.

(** Dividing an integer below [2^53] in magnitude by 2 is exact. *)
Lemma SFdiv_two_dyadic (s : bool) (a : positive) :
  Zpos a < 2 ^ 53 ->
  Binary64.dyadic 1
    (SFdiv Binary64.prec Binary64.emax (S754_finite s a 0) (S754_finite false 2 0))
    (cond_Zopp s (Zpos a)).
Proof.
  intros Ha.
  pose proof (digits2_pos_bounds a 53 Ha) as Hd.
  unfold SFdiv, SFdiv_core_binary.
  cbn [Zdigits2 digits2_pos]. change (Z.pos (Pos.succ 1)) with 2.
  set (d := Zpos (digits2_pos a)) in *.
  rewrite fexp_normal by lia.
  replace (Z.min (d + 0 - (2 + 0) - 53) (0 - 0)) with (d - 55) by lia.
  replace (0 - 0 - (d - 55)) with (55 - d) by lia.
  destruct (55 - d) as [| t | t] eqn:Et; try lia.
  change IntDef.Z.div_eucl with Z.div_eucl.
  change IntDef.Z.shiftl with Z.shiftl.
  rewrite Z.shiftl_mul_pow2 by lia.
  assert (Epos : 0 < Zpos a * 2 ^ (53 - d))
    by (apply Z.mul_pos_pos; [lia | apply Z.pow_pos_nonneg; lia]).
  assert (Em : exists m, Zpos m = Zpos a * 2 ^ (53 - d))
    by (destruct (Zpos a * 2 ^ (53 - d)) as [| m |]; try lia; now exists m).
  destruct Em as (m & Em).
  assert (Hm : Zpos (digits2_pos m) = 53).
  { rewrite (digits2_pos_scaled m a (53 - d)) by lia. fold d. lia. }
  replace (Z.pos a * 2 ^ Z.pos t) with (Z.pos m~0 * 2).
  - rewrite div_eucl_exact by lia.
    change (new_location 2 0) with loc_Exact.
    rewrite binary_round_aux_double, xorb_false_r by lia.
    exists (53 - d). repeat split; try lia.
    rewrite <- cond_Zopp_mul. f_equal. lia.
  - change (Z.pos m~0) with (2 * Z.pos m). rewrite Em.
    replace (Z.pos t) with (53 - d + 2) by lia.
    rewrite Z.pow_add_r by lia. change (2 ^ 2) with 4. ring.
Qed.

(** The float of [t / 2] with [t] even is the float of an integer. *)
Lemma dyadic_even (x : spec_float) (h : Z) :
  Binary64.dyadic 1 x (2 * h) -> Binary64.holds x h.
Proof.
  destruct x as [s | s | | s m e]; try contradiction.
  - unfold Binary64.holds, Binary64.dyadic. lia.
  - intros (j & -> & Hj & E & Hd).
    pose proof (digits_53_bound m Hd) as Hm.
    assert (Hh : h <> 0) by (destruct s; unfold cond_Zopp in E; nia).
    assert (Hj' : j <= 51).
    { destruct (Z.le_gt_cases j 51) as [| Hgt]; [assumption |].
      assert (j = 52) by lia. subst j. exfalso.
      destruct s; unfold cond_Zopp in E; lia. }
    exists (j + 1). repeat split; try lia.
    rewrite E, Z.pow_add_r, Z.pow_1_r by lia. ring.
Qed.

(** The float of an integer below [2^52] in magnitude is the float of its
    double, halved. *)
Lemma holds_dyadic (x : spec_float) (n : Z) :
  Binary64.holds x n -> - 2 ^ 52 < n < 2 ^ 52 -> Binary64.dyadic 1 x (2 * n).
Proof.
  destruct x as [s | s | | s m e]; try contradiction.
  - unfold Binary64.holds, Binary64.dyadic. lia.
  - intros (j & -> & Hj & E & Hd) Hn.
    pose proof (digits_53_bound m Hd) as Hm.
    assert (Hj' : 1 <= j).
    { destruct (Z.le_gt_cases 1 j) as [| Hlt]; [assumption |].
      assert (j = 0) by lia. subst j. exfalso.
      destruct s; unfold cond_Zopp in E; lia. }
    exists (j - 1). repeat split; try lia.
    rewrite E. replace j with (j - 1 + 1) at 1 by lia.
    rewrite Z.pow_add_r, Z.pow_1_r by lia. ring.
Qed.

(** [base_number / 2]. *)
Lemma half_dyadic (g : Z) :
  - 2 ^ 53 < g < 2 ^ 53 ->
  exists half,
    Binary64.truediv (Binary64.Int g) (Binary64.Int 2) = ret half
    /\ Binary64.dyadic 1 half g.
Proof.
  intros Hg.
  assert (H : forall s a,
             g = cond_Zopp s (Zpos a) ->
             Binary64.truediv (Binary64.Int g) (Binary64.Int 2)
             = match SFdiv Binary64.prec Binary64.emax
                       (S754_finite s a 0) (S754_finite false 2 0) with
               | S754_infinity _ =>
                   raise (OverflowError "integer division result too large for a float")
               | q => ret q
               end)
    by (intros [|] a ->; reflexivity).
  destruct g as [| a | a].
  - exists (S754_zero false). split; reflexivity.
  - rewrite (H false a eq_refl).
    pose proof (SFdiv_two_dyadic false a ltac:(lia)) as Hq.
    destruct (SFdiv _ _ _ _); try contradiction; eexists; (split; [reflexivity | exact Hq]).
  - rewrite (H true a eq_refl).
    pose proof (SFdiv_two_dyadic true a ltac:(lia)) as Hq.
    destruct (SFdiv _ _ _ _); try contradiction; eexists; (split; [reflexivity | exact Hq]).
Qed.

(** [base_number / 2] for an even [base_number]. *)
Lemma half_holds (h : Z) :
  - 2 ^ 53 < 2 * h < 2 ^ 53 ->
  exists half,
    Binary64.truediv (Binary64.Int (2 * h)) (Binary64.Int 2) = ret half
    /\ Binary64.holds half h.
Proof.
  intros Hh. destruct (half_dyadic (2 * h) Hh) as (half & E & H).
  exists half. split; [exact E | now apply dyadic_even].
Qed.

(** A number that is an integer below [2^53] in magnitude converts to the
    float that holds it. *)
Lemma to_float_holds (v : Binary64.number) (n : Z) :
  Binary64.integer v n -> - 2 ^ 53 < n < 2 ^ 53 ->
  exists x, Binary64.to_float v = ret x /\ Binary64.holds x n.
Proof.
  destruct v as [m | x]; cbn [Binary64.integer Binary64.to_float].
  - intros -> Hn. now apply of_int_holds.
  - intros Hx _. now exists x.
Qed.

Lemma to_float_halves (v : Binary64.number) (t : Z) :
  Binary64.halves v t -> - 2 ^ 53 < t < 2 ^ 53 ->
  exists x, Binary64.to_float v = ret x /\ Binary64.dyadic 1 x t.
Proof.
  destruct v as [m | x]; cbn [Binary64.halves Binary64.to_float].
  - intros -> Hn. destruct (of_int_holds m) as (x & E & Hx); [lia |].
    exists x. split; [exact E |]. apply holds_dyadic; [exact Hx | lia].
  - intros Hx _. now exists x.
Qed.

(** On integers, and with an even granularity, the float arithmetic of the
    quantizer is exact as long as everything stays below [2^53]. *)
Lemma get_closest_multiple_of_exact (v : Binary64.number) (n h : Z) :
  Binary64.integer v n ->
  h <> 0 -> - 2 ^ 53 < 2 * h < 2 ^ 53 ->
  - 2 ^ 53 < n < 2 ^ 53 -> - 2 ^ 53 < n + h < 2 ^ 53 ->
  Binary64.get_closest_multiple_of v (2 * h)
  = ret (n + h - (n + h) mod (2 * h)).
Proof.
  intros Hv Hh Hg Hn Hsum. unfold Binary64.get_closest_multiple_of.
  destruct (half_holds h Hg) as (half & -> & Hhalf). cbn [bind ret].
  unfold Binary64.add.
  destruct (to_float_holds v n Hv Hn) as (x & -> & Hx). cbn [bind ret].
  rewrite (to_int_holds _ (n + h))
    by (apply (SFadd_dyadic 0); auto; lia).
  cbn [bind ret]. unfold py_mod.
  destruct (Z.eqb_spec (2 * h) 0) as [E | _]; [lia | reflexivity].
Qed.

(** On halves of integers, and with any granularity, it is exact as long
    as everything stays below [2^52]: the value [t / 2] goes to the
    truncated [(t + g) / 2], less its remainder. *)
Lemma get_closest_multiple_of_halves (v : Binary64.number) (t g : Z) :
  Binary64.halves v t ->
  g <> 0 -> - 2 ^ 53 < g < 2 ^ 53 ->
  - 2 ^ 53 < t < 2 ^ 53 -> - 2 ^ 53 < t + g < 2 ^ 53 ->
  Binary64.get_closest_multiple_of v g
  = ret (Z.quot (t + g) 2 - Z.quot (t + g) 2 mod g).
Proof.
  intros Hv Hg0 Hg Ht Hsum. unfold Binary64.get_closest_multiple_of.
  destruct (half_dyadic g Hg) as (half & -> & Hhalf). cbn [bind ret].
  unfold Binary64.add.
  destruct (to_float_halves v t Hv Ht) as (x & -> & Hx). cbn [bind ret].
  rewrite (to_int_dyadic 1 _ (t + g))
    by (try lia; apply (SFadd_dyadic 1); auto; lia).
  cbn [bind ret]. rewrite Z.pow_1_r. unfold py_mod.
  destruct (Z.eqb_spec g 0) as [E | _]; [lia | reflexivity].
Qed.

Lemma get_closest_multiple_of_16_exact (v : Binary64.number) (n : Z) :
  Binary64.integer v n -> - 2 ^ 53 < n -> n + 8 < 2 ^ 53 ->
  Binary64.get_closest_multiple_of_16 v = ret (n + 8 - (n + 8) mod 16).
Proof.
  intros Hv Hlo Hhi.
  apply (get_closest_multiple_of_exact v n 8 Hv); lia.
Qed.

(** Where binary64 is exact, the quantizer in exact arithmetic returns what
    the quantizer in binary64 returns. *)
Lemma quantizers_agree_on_integers (n : Z) :
  - 2 ^ 53 < n -> n + 8 < 2 ^ 53 ->
  Binary64.get_closest_multiple_of_16 (Binary64.Int n)
  = get_closest_multiple_of_16 (inject_Z n).
Proof.
  intros Hlo Hhi.
  rewrite (get_closest_multiple_of_16_exact (Binary64.Int n) n eq_refl Hlo Hhi).
  now rewrite get_closest_multiple_of_16_on_integers.
Qed.

(** ** Quantization *)

(** C1 as the specification words it does not hold: the two halfway values
    it names go to the upper multiple, [quantize16(8)] to [16] and
    [quantize16(24)] to [32]. *)
Lemma quantize16_ties_not_down :
  Binary64.get_closest_multiple_of_16 (Binary64.Int 8) = ret 16
  /\ Binary64.get_closest_multiple_of_16 (Binary64.Int 24) = ret 32
  /\ ~ (Binary64.get_closest_multiple_of_16 (Binary64.Int 8) = ret 0
        /\ Binary64.get_closest_multiple_of_16 (Binary64.Int 24) = ret 16).
Proof.
  split; [reflexivity | split; [reflexivity |]].
  intros [H8 _]. vm_compute in H8. discriminate H8.
Qed.

(** C1, amended: an exact halfway value is rounded up.  For a granularity
    [g > 0] and an integer [k] such that [g*k] and [g*(k+1)] lie between
    [-2^52] and [2^52], where binary64 holds every integer and every half,
    the halfway value [g*k + g/2], an [int] or a float, goes to the upper
    multiple [g*(k+1)]; in particular [quantize16(8) = 16] and
    [quantize16(24) = 32].  The bound is needed: [2^56 + 8] is no float,
    and the quantizer sends it to [2^56]. *)
Theorem quantize_ties_round_up (g k : Z) (v : Binary64.number)
    (Hg : 0 < g) (Hv : Binary64.halves v (2 * (g * k) + g))
    (Hlo : - 2 ^ 52 < g * k) (Hhi : g * (k + 1) < 2 ^ 52) :
  Binary64.get_closest_multiple_of v g = ret (g * (k + 1))
  /\ Binary64.get_closest_multiple_of_16 (Binary64.Int 8) = ret 16
  /\ Binary64.get_closest_multiple_of_16 (Binary64.Int 24) = ret 32
  /\ Binary64.get_closest_multiple_of_16 (Binary64.Int (2 ^ 56 + 8))
     = ret (2 ^ 56).
Proof.
  split; [| split; [| split]]; try reflexivity.
  rewrite (get_closest_multiple_of_halves v (2 * (g * k) + g) g Hv) by lia.
  replace (2 * (g * k) + g + g) with (g * (k + 1) * 2) by ring.
  rewrite Z.quot_mul by lia.
  rewrite (Z.mul_comm g (k + 1)), Z_mod_mult, Z.sub_0_r. reflexivity.
Qed.

Lemma quantize_ties_round_up_witness :
  Binary64.get_closest_multiple_of (Binary64.Int 56) 16 = ret (16 * (3 + 1))
  /\ Binary64.get_closest_multiple_of
       (Binary64.Float (S754_finite false (15 * 2 ^ 49) (-50))) 5
     = ret (5 * (1 + 1)).
Proof.
  split.
  - apply (quantize_ties_round_up 16 3 (Binary64.Int 56));
      (reflexivity || lia).
  - apply (quantize_ties_round_up 5 1
             (Binary64.Float (S754_finite false (15 * 2 ^ 49) (-50))));
      try lia.
    exists 49. repeat split; (lia || reflexivity).
Defined.




(** ** The batch validator *)

Import Checker.

Lemma scan_ops_spec (ops : list Instruction) (st : list Z * list Z) :
  scan_ops ops st
  = (fst st ++ acq_durations ops, snd st ++ play_durations ops).
Proof.
  revert st. induction ops as [| op rest IH]; intros [acq all].
  - simpl. now rewrite !app_nil_r.
  - cbn [scan_ops]. rewrite IH. unfold acq_durations, play_durations.
    destruct op; cbn; rewrite <- ?app_assoc; reflexivity.
Qed.

Lemma acq_durations_app (a b : list Instruction) :
  acq_durations (a ++ b) = acq_durations a ++ acq_durations b.
Proof. unfold acq_durations. now rewrite filter_app, map_app. Qed.

Lemma play_durations_app (a b : list Instruction) :
  play_durations (a ++ b) = play_durations a ++ play_durations b.
Proof. unfold play_durations. now rewrite filter_app, map_app. Qed.

(** On a batch without empty sequences the two loops gather the durations
    of all acquisitions and of all plays, in batch order. *)
Lemma scan_job_spec (job : list Schedule) (st : list Z * list Z) :
  Forall nonempty job ->
  scan_job job st
  = ret (fst st ++ acq_durations (ops_of_job job),
         snd st ++ play_durations (ops_of_job job)).
Proof.
  intros Hne. revert st. induction Hne as [| s rest Hs _ IH]; intros st.
  - destruct st as [acq all]. simpl. now rewrite !app_nil_r.
  - cbn [scan_job]. unfold ops_array. unfold nonempty in Hs.
    destruct (instructions s) as [| i l] eqn:E; [contradiction |].
    cbn [bind ret]. rewrite IH, scan_ops_spec. cbn [fst snd].
    replace (ops_of_job (s :: rest)) with (ops_of s ++ ops_of_job rest)
      by reflexivity.
    rewrite acq_durations_app, play_durations_app, !app_assoc.
    unfold ops_of. rewrite E. reflexivity.
Qed.

(** An empty sequence stops the validator at the column selection. *)
Lemma scan_job_empty_sequence (job : list Schedule) (st : list Z * list Z) :
  Exists (fun s => instructions s = []) job ->
  scan_job job st = raise (IndexError "too many indices for array").
Proof.
  intros Hex. revert st. induction job as [| s rest IH]; intros st.
  - inversion Hex.
  - cbn [scan_job]. unfold ops_array.
    destruct (instructions s) as [| i l] eqn:E; [reflexivity |].
    cbn [bind ret]. apply IH. inversion Hex; subst; [congruence | assumption].
Qed.

Lemma acquisition_checker_verdict (job : list Schedule) :
  Forall nonempty job ->
  acquisition_checker job
  = check_durations (List.length job) (acq_durations (ops_of_job job))
      (play_durations (ops_of_job job)).
Proof.
  intros Hne. unfold acquisition_checker.
  rewrite (scan_job_spec job _ Hne). reflexivity.
Qed.

Lemma in_job_iff (op : Instruction) (job : list Schedule) :
  in_job op job <-> In op (ops_of_job job).
Proof.
  unfold in_job, ops_of_job, ops_of. rewrite in_flat_map. split.
  - intros (s & t & Hs & Hop). exists s. split; [exact Hs |].
    apply in_map_iff. now exists (t, op).
  - intros (s & Hs & Hop). apply in_map_iff in Hop.
    destruct Hop as ([t op'] & E & Hop). simpl in E. subst op'.
    now exists s, t.
Qed.

Lemma forallb_false_witness {A} (f : A -> bool) (l : list A) :
  forallb f l = false -> exists x, In x l /\ f x = false.
Proof.
  induction l as [| a l IH]; simpl; [discriminate |].
  destruct (f a) eqn:Ea; simpl.
  - intros H. destruct (IH H) as (x & Hin & Hx). exists x. auto.
  - intros _. exists a. auto.
Qed.

(** When every play duration is on the grid, the two timing tests pass. *)
Lemma check_durations_on_grid (n : nat) (acq all : list Z) :
  Forall nonzero_multiple_of_16 all ->
  check_durations n acq all
  = if negb (Nat.eqb (List.length acq) n) then raise (ValueError msg_count)
    else match acq with
         | [] => raise (IndexError "index 0 is out of bounds for axis 0 with size 0")
         | first :: _ =>
             if negb (forallb (fun d => d =? first) acq) then
               raise (ValueError msg_not_identical)
             else if negb (first mod 16 =? 0) then
               raise (ValueError msg_acq_multiple)
             else ret tt
         end.
Proof.
  intros Hall. unfold check_durations.
  assert (E1 : forallb (fun d => d mod 16 =? 0) all = true).
  { apply forallb_forall. intros d Hin. rewrite Forall_forall in Hall.
    apply Z.eqb_eq. now destruct (Hall d Hin). }
  assert (E2 : forallb (fun d => negb (d =? 0)) all = true).
  { apply forallb_forall. intros d Hin. rewrite Forall_forall in Hall.
    apply negb_true_iff, Z.eqb_neq. now destruct (Hall d Hin). }
  rewrite E1, E2. reflexivity.
Qed.

(** The number of gathered acquisitions is the sum of the sequences' own. *)
Lemma length_acq_durations (job : list Schedule) :
  List.length (acq_durations (ops_of_job job))
  = fold_right (fun s n => (acquisitions s + n)%nat) 0%nat job.
Proof.
  induction job as [| s rest IH]; [reflexivity |].
  replace (ops_of_job (s :: rest)) with (ops_of s ++ ops_of_job rest)
    by reflexivity.
  rewrite acq_durations_app, length_app, IH. cbn [fold_right].
  f_equal. unfold acq_durations, acquisitions. now rewrite length_map.
Qed.

Lemma exactly_one_each (job : list Schedule) :
  Forall (fun s => acquisitions s = 1%nat) job ->
  List.length (acq_durations (ops_of_job job)) = List.length job.
Proof.
  intros H. rewrite length_acq_durations.
  induction H as [| s rest Hs _ IH]; cbn [fold_right List.length]; lia.
Qed.

Lemma one_acquisition_nonempty (job : list Schedule) :
  Forall (fun s => (1 <= acquisitions s)%nat) job -> Forall nonempty job.
Proof.
  apply Forall_impl. intros s Hs E. unfold acquisitions, ops_of in Hs.
  rewrite E in Hs. simpl in Hs. lia.
Qed.

Import Samples.

(** C3: the validator does not test delays.  Its two timing messages
    speak of "Delay or Play", but only [pulse.Play] durations are gathered
    into [all_duration_array]: the batch of one sequence [play 16; delay 8;
    acquire 512] is accepted, with no timing error, and so is that sequence
    with any other duration, positive or not, on the grid or off it, in
    place of the 8. *)
Theorem delay_durations_unchecked :
  (acquisition_checker job_short_delay = ret tt
   /\ ~ timing_error (acquisition_checker job_short_delay)
   /\ exists op, in_job op job_short_delay /\ is_Delay op = true
                 /\ duration op = 8
                 /\ ~ positive_multiple_of_16 (duration op))
  /\ forall d : Z,
       acquisition_checker
         [sequence [play_on_drive 16; wait d; acquire 512]] = ret tt.
Proof.
  split; [split; [| split] |].
  - reflexivity.
  - intros [H | H]; discriminate H.
  - exists (wait 8). split; [| split; [| split]].
    + apply in_job_iff. cbn. auto.
    + reflexivity.
    + reflexivity.
    + intros [Hm _]. discriminate Hm.
  - intros d. reflexivity.
Qed.

(** Delays never reach the validator's lists: a batch is judged as if its
    delay instructions were not there, whatever their durations. *)
Lemma delays_are_not_gathered (ops : list Instruction) (st : list Z * list Z) :
  scan_ops ops st = scan_ops (filter (fun op => negb (is_Delay op)) ops) st.
Proof.
  revert st. induction ops as [| op rest IH]; intros st; [reflexivity |].
  destruct op; cbn; apply IH.
Qed.

(** C4: the count test compares totals.  Its message speaks of "more than
    1 acquisition per circuit", but the test is [len(acq_duration_array)
    != len(job)] over the whole batch: a sequence without acquisition next
    to one with two is accepted, although each of the two, alone in its
    batch, is rejected as malformed. *)
Theorem acquisition_count_compares_totals :
  (acquisitions (sequence [play_on_drive 16]) = 0%nat
   /\ acquisitions (sequence [play_on_drive 16; acquire 512; acquire 512])
      = 2%nat
   /\ acquisition_checker job_counts_cancel = ret tt)
  /\ malformed_sequence_error
       (acquisition_checker [sequence [play_on_drive 16]])
  /\ malformed_sequence_error
       (acquisition_checker
          [sequence [play_on_drive 16; acquire 512; acquire 512]]).
Proof.
  repeat split.
Qed.

Lemma forallb_eqb_first (first : Z) (l : list Z) :
  forallb (fun d => d =? first) l = true <-> Forall (eq first) l.
Proof.
  rewrite forallb_forall, Forall_forall. split; intros H d Hin.
  - symmetry. apply Z.eqb_eq. auto.
  - apply Z.eqb_eq. symmetry. auto.
Qed.

(** C5 as the specification words it does not hold: all acquisition
    durations equal 512 and all play and delay durations are multiples of
    16, and still the batch does not pass; in the first its one sequence
    holds two acquisitions, in the second a play lasts 0 samples. *)
Lemma uniform_windows_not_enough :
  (Forall (eq 512) (acq_durations (ops_of_job job_two_acquisitions))
   /\ Forall (fun d => d mod 16 = 0)
        (play_durations (ops_of_job job_two_acquisitions)
         ++ delay_durations (ops_of_job job_two_acquisitions))
   /\ acquisition_checker job_two_acquisitions = raise (ValueError msg_count))
  /\ (Forall (eq 512) (acq_durations (ops_of_job job_zero_play))
      /\ Forall (fun d => d mod 16 = 0)
           (play_durations (ops_of_job job_zero_play)
            ++ delay_durations (ops_of_job job_zero_play))
      /\ acquisition_checker job_zero_play = raise (ValueError msg_zero)).
Proof.
  split; (split; [| split]); try reflexivity; repeat constructor.
Qed.

(** C5, amended: on a non-empty batch in which every sequence holds
    exactly one acquisition, every play duration is a non-zero multiple of
    16 and every delay duration a multiple of 16, the validator raises an
    inconsistent-acquisition error exactly when the acquisition durations
    are not all identical or their common value is not a multiple of 16;
    so it does for the durations [512, 512, 528]; and it passes when they
    all equal 512. *)
Theorem acquisition_window_check (job : list Schedule)
    (Hjob : job <> [])
    (Hone : Forall (fun s => acquisitions s = 1%nat) job)
    (Hplays : plays_on_grid job)
    (Hdelays : delays_on_grid job) :
  let windows := acq_durations (ops_of_job job) in
  (inconsistent_acquisition_error (acquisition_checker job)
   <-> ~ exists d, d mod 16 = 0 /\ Forall (eq d) windows)
  /\ (windows = [512; 512; 528]
      -> inconsistent_acquisition_error (acquisition_checker job))
  /\ (Forall (eq 512) windows -> acquisition_checker job = ret tt).
Proof.
  cbv zeta. set (windows := acq_durations (ops_of_job job)).
  assert (Hne : Forall nonempty job).
  { apply one_acquisition_nonempty. eapply Forall_impl; [| exact Hone].
    cbn. lia. }
  pose proof (exactly_one_each job Hone) as Hcount.
  change (List.length windows = List.length job) in Hcount.
  rewrite (acquisition_checker_verdict job Hne).
  rewrite (check_durations_on_grid _ _ _ Hplays). fold windows.
  rewrite Hcount, Nat.eqb_refl. cbn [negb].
  clearbody windows.
  destruct windows as [| first rest].
  { destruct job; [now elim Hjob | discriminate Hcount]. }
  unfold inconsistent_acquisition_error.
  destruct (forallb (fun d => d =? first) (first :: rest)) eqn:Eall; cbn [negb].
  - apply forallb_eqb_first in Eall.
    destruct (first mod 16 =? 0) eqn:Em; cbn [negb].
    + apply Z.eqb_eq in Em. split; [| split].
      * split.
        -- intros [H | H]; discriminate H.
        -- intros Hno. exfalso. apply Hno. now exists first.
      * intros E. injection E as -> ->. exfalso.
        inversion Eall as [| ? ? _ Hx]. inversion Hx as [| ? ? _ Hy].
        inversion Hy as [| ? ? Hz _]. discriminate Hz.
      * reflexivity.
    + apply Z.eqb_neq in Em. split; [| split].
      * split; [| auto].
        intros _ (d & Hd & Hall). inversion Hall; subst. contradiction.
      * auto.
      * intros Hall. inversion Hall; subst. exfalso. apply Em. reflexivity.
  - split; [| split].
    + split; [| auto].
      intros _ (d & Hd & Hall).
      assert (Hfirst : Forall (eq first) (first :: rest)).
      { inversion Hall; subst. exact Hall. }
      apply forallb_eqb_first in Hfirst. congruence.
    + auto.
    + intros Hall.
      assert (Hfirst : Forall (eq first) (first :: rest)).
      { inversion Hall; subst. exact Hall. }
      apply forallb_eqb_first in Hfirst. congruence.
Qed.

Lemma acquisition_window_check_witness :
  inconsistent_acquisition_error (acquisition_checker job_mixed_windows)
  /\ acquisition_checker job_uniform = ret tt.
Proof.
  split.
  - apply (acquisition_window_check job_mixed_windows).
    + discriminate.
    + repeat constructor.
    + repeat constructor; discriminate.
    + repeat constructor.
    + reflexivity.
  - apply (acquisition_window_check job_uniform).
    + discriminate.
    + repeat constructor.
    + repeat constructor; discriminate.
    + repeat constructor.
    + repeat constructor.
Defined.

(** ** The builders *)

(** The catalog lookup leaves one entry in the log, whatever it returns. *)
Lemma get_single_qubit_pulses_log (qubit : Z) (backend : Backend)
    (log : list event) :
  get_single_qubit_pulses qubit backend log
  = (fst (run (get_single_qubit_pulses qubit backend)),
     log ++ [CatalogLookup qubit]).
Proof.
  unfold run, get_single_qubit_pulses, mbind, emit, lift, mret.
  repeat match goal with
         | |- context [match ?r with inl _ => _ | inr _ => _ end] =>
             destruct r; cbn [fst]
         end; reflexivity.
Qed.

Lemma catalog_gives_run (qubit : Z) (backend : Backend)
    (d : single_qubit_rr_dict) (log : list event) :
  catalog_gives qubit backend d ->
  get_single_qubit_pulses qubit backend log
  = (inr d, log ++ [CatalogLookup qubit]).
Proof.
  intros H. rewrite get_single_qubit_pulses_log. unfold catalog_gives in H.
  now rewrite H.
Qed.

Lemma sample_catalog :
  catalog_gives 0 SampleBackend.backend SampleBackend.pulses.
Proof. reflexivity. Qed.

Lemma quantized_ticks_ret (sec dt : Q) :
  Qeq_bool dt 0 = false -> quantized_ticks sec dt = ret (ticks sec dt).
Proof.
  intros Hdt. unfold quantized_ticks, get_dt_from. rewrite Hdt.
  rewrite get_closest_multiple_of_ret by discriminate. cbn [bind ret].
  apply get_closest_multiple_of_16_ret.
Qed.

Lemma quantized_ticks_default (sec : Q) :
  quantized_ticks sec default_dt = ret (ticks sec default_dt).
Proof. apply quantized_ticks_ret. reflexivity. Qed.

(** *** Sweep arguments *)

(** C6: [rr_freq_spec] and [RRFreqSpec.__init__] raise a [ValueError]
    when both an explicit [freq_linspace] and a [(freq_span,
    num_experiments)] pair are given, and when none of the three is; the
    log is then as it was on entry, so no sequence was built, nor the
    catalog read. *)
Theorem sweep_arguments_exclusive (qubit : Z) (backend : Backend)
    (freq_span : Q) (num_experiments : Z) (freq_linspace : sweep)
    (log : list event) :
  (exists msg,
      rr_freq_spec qubit backend (Some freq_span) (Some num_experiments)
        (Some freq_linspace) log = (raise (ValueError msg), log))
  /\ rr_freq_spec qubit backend None None None log
     = (raise (ValueError msg_sweep), log)
  /\ (exists msg,
         RRFreqSpec.__init__ qubit backend (Some freq_span)
           (Some num_experiments) (Some freq_linspace) log
         = (raise (ValueError msg), log))
  /\ RRFreqSpec.__init__ qubit backend None None None log
     = (raise (ValueError msg_sweep), log).
Proof.
  repeat split; try reflexivity.
  - destruct freq_linspace as [l | [| a [| b l]]]; eexists; reflexivity.
  - destruct freq_linspace as [l | [| a [| b l]]]; eexists; reflexivity.
Qed.

(** *** Loops *)

(** A loop whose body always returns computes the left fold of the
    body's step. *)
Lemma for_each_fold {A S} (xs : list A) (body : A -> S -> M S)
    (step : A -> S -> S) :
  (forall x s log, fst (body x s log) = inr (step x s)) ->
  forall s log,
    fst (for_each xs body s log) = inr (fold_left (fun s x => step x s) xs s).
Proof.
  intros Hstep. induction xs as [| x rest IH]; intros s log; [reflexivity |].
  cbn [for_each fold_left]. unfold mbind at 1.
  specialize (Hstep x s log).
  destruct (body x s log) as [[e | s'] log']; cbn [fst] in Hstep.
  - discriminate Hstep.
  - injection Hstep as ->. apply IH.
Qed.

Lemma py_index_end_last {A} (l : list A) (a d : A) :
  py_index_end (a :: l) 1 = ret (last (a :: l) d).
Proof.
  unfold py_index_end. cbn [Nat.pred].
  assert (Hne : a :: l <> []) by discriminate.
  rewrite (app_removelast_last d Hne) at 1.
  rewrite rev_app_distr. reflexivity.
Qed.

(** *** Frequency spectroscopy *)

Section FreqSpecLoop.

Variables (qubit : Z) (x_pulse : Pulse) (freq_linspace : list Q).
Variables (f0 f1 flast : Q).
Hypothesis first_point : py_index freq_linspace 0 = ret f0.
Hypothesis second_point : py_index freq_linspace 1 = ret f1.
Hypothesis last_point : py_index_end freq_linspace 1 = ret flast.

Lemma freq_spec_body_step (freq_shift : Q) (st : freq_spec_state)
    (log : list event) :
  fst (freq_spec_body qubit x_pulse freq_linspace freq_shift st log)
  = inr (freq_spec_step qubit x_pulse f0 f1 flast freq_shift st).
Proof.
  destruct st as [[g e] d].
  unfold freq_spec_body, freq_spec_step, mbind, pulse.build, emit, lift, mret.
  cbn -[py_round py_index py_index_end Qdiv Qminus].
  rewrite second_point, first_point, last_point. reflexivity.
Qed.

Lemma freq_spec_fold (l : list Q) (g e : list ScheduleBlock)
    (d : option details_dict) :
  List.length g = List.length e ->
  fold_left (fun s x => freq_spec_step qubit x_pulse f0 f1 flast x s) l (g, e, d)
  = (g ++ map (ground_sequence qubit) l,
     e ++ map (excited_sequence qubit x_pulse) l,
     match l with
     | [] => d
     | _ => Some (sweep_details (List.length g + List.length l) f0 f1 flast)
     end).
Proof.
  revert g e d. induction l as [| x rest IH]; intros g e d Hlen.
  - cbn. now rewrite !app_nil_r.
  - cbn [fold_left freq_spec_step]. rewrite IH.
    + rewrite <- !app_assoc. cbn [app map]. f_equal.
      destruct rest as [| y rest'].
      * cbn [List.length]. rewrite !length_app, <- Hlen. reflexivity.
      * rewrite !length_app. cbn [List.length]. do 2 f_equal. lia.
    + rewrite !length_app. cbn. lia.
Qed.

(** The loop and the [return], on a sweep with a first point. *)
Lemma freq_spec_jobs_result (log : list event) :
  fst (freq_spec_jobs qubit x_pulse freq_linspace log)
  = inr (map (ground_sequence qubit) freq_linspace,
         map (excited_sequence qubit x_pulse) freq_linspace,
         sweep_details (List.length freq_linspace) f0 f1 flast).
Proof.
  unfold freq_spec_jobs. unfold mbind at 1.
  pose proof (for_each_fold freq_linspace
                (freq_spec_body qubit x_pulse freq_linspace)
                (freq_spec_step qubit x_pulse f0 f1 flast)
                freq_spec_body_step ([], [], None) log) as H.
  destruct (for_each freq_linspace _ _ log) as [[e | st] log'];
    cbn [fst] in H.
  - discriminate H.
  - injection H as ->. rewrite freq_spec_fold by reflexivity.
    destruct freq_linspace as [| a l]; [discriminate first_point |].
    reflexivity.
Qed.

End FreqSpecLoop.

(** With an explicit list and nothing else, the builder reaches the loop. *)
Lemma rr_freq_spec_explicit (qubit : Z) (backend : Backend)
    (d : single_qubit_rr_dict) (sweep : list Q) (log : list event) :
  catalog_gives qubit backend d ->
  rr_freq_spec qubit backend None None (Some (PyList sweep)) log
  = freq_spec_jobs qubit (dict_x_pulse d) sweep (log ++ [CatalogLookup qubit]).
Proof.
  intros Hcat. unfold rr_freq_spec, mbind, lift, mret, mraise.
  cbn [eq_None andb sweep_eq_None np_logical_xor xorb py_not ret negb
       option_map sweep_values iterate].
  rewrite (catalog_gives_run _ _ _ _ Hcat). reflexivity.
Qed.

(** With a span and a count and no explicit sweep, it reaches the loop on
    the derived sweep. *)
Lemma rr_freq_spec_derived (qubit : Z) (backend : Backend)
    (d : single_qubit_rr_dict) (span : Q) (num : Z) (sweep : list Q)
    (log : list event) :
  catalog_gives qubit backend d ->
  centred_linspace (Some span) (Some num) = ret sweep ->
  rr_freq_spec qubit backend (Some span) (Some num) None log
  = freq_spec_jobs qubit (dict_x_pulse d) sweep (log ++ [CatalogLookup qubit]).
Proof.
  intros Hcat Hsweep. unfold rr_freq_spec, mbind, lift, mret, mraise.
  cbn [eq_None andb sweep_eq_None np_logical_xor xorb py_not ret negb].
  rewrite Hsweep. cbn [ret iterate].
  rewrite (catalog_gives_run _ _ _ _ Hcat). reflexivity.
Qed.

(** X25: an explicit sweep handed over as a NumPy array of two or more values
    never reaches the loop: [freq_linspace == None] is then an array, and
    [not valid_setting] has no truth value. *)
Lemma ndarray_sweep_rejected (qubit : Z) (backend : Backend)
    (a b : Q) (rest : list Q) (log : list event) :
  exists msg,
    rr_freq_spec qubit backend None None (Some (NdArray (a :: b :: rest))) log
    = (raise (ValueError msg), log)
    /\ msg <> msg_sweep.
Proof.
  eexists. split; [reflexivity | discriminate].
Qed.

(** C7: a sweep of length one is not answered with two lists of length
    one.  The body of the loop computes [details] from [freq_linspace[1]]:
    with the one-point sweep [[1e6]] the builder opens the ground and the
    excited sequence of that point and then raises [IndexError].  The same
    point twice is answered, with two lists of two sequences. *)
Theorem single_point_sweep_raises :
  run (rr_freq_spec 0 SampleBackend.backend None None
         (Some (PyList [1000000%Q])))
  = (raise (IndexError "index out of range"),
     [CatalogLookup 0;
      BuildSchedule [Lit "freq spec g, shift: ";
                     Num (py_round (1000000 / MHz) 3); Lit "MHz"];
      BuildSchedule [Lit "freq spec e, shift: ";
                     Num (py_round (1000000 / MHz) 3); Lit "MHz"]])
  /\ exists g e details,
       fst (run (rr_freq_spec 0 SampleBackend.backend None None
                   (Some (PyList [1000000%Q; 1000000%Q]))))
       = inr (g, e, details)
       /\ List.length g = 2%nat /\ List.length e = 2%nat.
Proof.
  split; [reflexivity |].
  do 3 eexists. split; [reflexivity | split; reflexivity].
Qed.

(** *** The template of the right-aligned AC-Stark builders *)

Ltac quantize :=
  repeat (rewrite ?get_closest_multiple_of_16_ret, ?quantized_ticks_default;
          cbn beta iota delta [bind ret bbind blift bret fst snd]).


(** Without one, the first [pulse.play] of the block raises. *)
Lemma aligned_template_unbound (qubit : Z) (unbound : exception)
    (qubit_amp qubit_duration qubit_sigma_sec delay_duration_dt
       buffer_delay_duration : Q) :
  aligned_template qubit unbound None qubit_amp qubit_duration
    qubit_sigma_sec delay_duration_dt buffer_delay_duration []
  = inl unbound.
Proof.
  unfold aligned_template. quantize.
  unfold pulse.shift_frequency, pulse.align_right, append_instruction.
  quantize. reflexivity.
Qed.

(** *** Mode strings *)

(** C8, at the failing input: [improved_ac_stark_photon_experiment] has no
    test of [mode].  With a mode that is neither ["gaussian_square"] nor
    ["rectangular"] the local [meas_pulse] is never assigned, and the
    builder raises [UnboundLocalError] from inside the [pulse.build]
    block, after the catalog was read and the sequence opened; the error
    names no supported mode. *)
Theorem improved_mode_unchecked (qubit : Z) (backend : Backend)
    (d : single_qubit_rr_dict) (sigma : Q)
    (freq_linspace : list Q) (meas_amp qubit_amp : Q)
    (meas_duration qubit_duration buffer_delay_duration : Q)
    (meas_delay_sec : scalar_or_array) (qubit_sigma_sec : Q)
    (mode : string) (delay_duration_dt : Q)
    (Hcat : catalog_gives qubit backend d)
    (Hsigma : pulse_sigma (dict_meas_pulse d) = ret sigma)
    (Hgs : mode <> "gaussian_square"%string)
    (Hrect : mode <> "rectangular"%string) :
  run (improved_ac_stark_photon_experiment qubit backend freq_linspace
         meas_amp qubit_amp meas_duration qubit_duration
         buffer_delay_duration meas_delay_sec qubit_sigma_sec mode
         delay_duration_dt)
  = (raise (UnboundLocalError "meas_pulse"),
     [CatalogLookup qubit; BuildSchedule [Lit "Qubit Freq Spec"]]).
Proof.
  unfold run, improved_ac_stark_photon_experiment, mbind at 1.
  rewrite (catalog_gives_run _ _ _ _ Hcat).
  unfold mbind, lift, pulse.build, emit.
  rewrite get_closest_multiple_of_16_ret, Hsigma. cbn [ret].
  apply String.eqb_neq in Hgs, Hrect. rewrite Hgs, Hrect.
  rewrite aligned_template_unbound. reflexivity.
Qed.

Lemma improved_mode_unchecked_witness :
  run (improved_ac_stark_photon_experiment 0 SampleBackend.backend
         [-1000000; 0; 1000000]%Q (1 # 4) (1 # 10) 1440 160 128
         (OfFloat (1 # 10000000)) (15 # 1000000000) "triangular" 128)
  = (raise (UnboundLocalError "meas_pulse"),
     [CatalogLookup 0; BuildSchedule [Lit "Qubit Freq Spec"]]).
Proof.
  apply (improved_mode_unchecked 0 SampleBackend.backend SampleBackend.pulses 64).
  - exact sample_catalog.
  - reflexivity.
  - discriminate.
  - discriminate.
Defined.

(** X24: the sibling [ACStarkPhoton.__init__] does test [mode]: an unsupported
    one raises a [ValueError] that lists the supported modes, after the
    catalog lookup and before any sequence is opened. *)
Lemma ACStarkPhoton_mode_checked (library : Library)
    (qubit : Z) (backend : Backend)
    (d : single_qubit_rr_dict) (sigma : Q)
    (freq_linspace : list Q) (meas_amp qubit_amp : Q)
    (meas_duration qubit_duration buffer_delay_duration : Q)
    (meas_delay_sec : scalar_or_array) (qubit_sigma_sec : Q)
    (mode : string) (delay_duration_dt : Q) :
  catalog_gives qubit backend d ->
  pulse_sigma (dict_meas_pulse d) = ret sigma ->
  ~ In mode ACStarkPhoton.supported_modes ->
  run (ACStarkPhoton.__init__ library qubit backend freq_linspace meas_amp
         qubit_amp meas_duration qubit_duration buffer_delay_duration
         meas_delay_sec qubit_sigma_sec mode delay_duration_dt)
  = (raise (ValueError ("input mode: " ++ mode
                        ++ " is not supported, valid modes are ['gaussian_square', 'gaussian']")),
     [CatalogLookup qubit]).
Proof.
  intros Hcat Hsigma Hmode.
  unfold run, ACStarkPhoton.__init__, mbind at 1.
  rewrite (catalog_gives_run _ _ _ _ Hcat).
  unfold mbind, lift. rewrite get_closest_multiple_of_16_ret, Hsigma.
  cbn [ret].
  assert (E : existsb (String.eqb mode) ACStarkPhoton.supported_modes = false).
  { destruct (existsb _ _) eqn:Ex; [| reflexivity].
    apply existsb_exists in Ex. destruct Ex as (s & Hin & Hs).
    apply String.eqb_eq in Hs. subst s. contradiction. }
  rewrite E. reflexivity.
Qed.

(** *** [ACStarkPhoton.get_jobs] *)






(** *** Two-level sweeps *)

Lemma fold_left_append {A B} (f : A -> B) (l : list A) (s : list B) :
  fold_left (fun s x => s ++ [f x]) l s = s ++ map f l.
Proof.
  revert s. induction l as [| x rest IH]; intros s; cbn.
  - now rewrite app_nil_r.
  - now rewrite IH, <- app_assoc.
Qed.



Section RamseyLoops.

Variables (qubit : Z) (dt : Q) (sx_pulse : Pulse) (freq_detuning : Q).
Variables (meas_block : option ScheduleBlock) (buffer_duration : Z).
Hypothesis dt_nonzero : Qeq_bool dt 0 = false.

Lemma ramsey_inner_body_step (delay_dur_dt : Z) (ramsey_delay_sec : Q)
    (exps : list ScheduleBlock) (log : list event) :
  fst (ramsey_inner_body qubit dt sx_pulse freq_detuning meas_block
         buffer_duration delay_dur_dt ramsey_delay_sec exps log)
  = inr (exps ++ [ramsey_sequence qubit dt sx_pulse freq_detuning meas_block
                    buffer_duration delay_dur_dt (ticks ramsey_delay_sec dt)]).
Proof.
  unfold ramsey_inner_body, mbind, lift.
  rewrite (quantized_ticks_ret _ _ dt_nonzero). cbn [ret].
  unfold pulse.build, mbind, emit, ramsey_sequence.
  destruct meas_block as [block |];
    destruct (negb (Qeq_bool freq_detuning 0)); reflexivity.
Qed.

Lemma ramsey_outer_body_step (ramsey_t2_linspace : list Q) (delay_dur_sec : Q)
    (big : list (list ScheduleBlock)) (log : list event) :
  fst (ramsey_outer_body qubit dt sx_pulse freq_detuning meas_block
         buffer_duration ramsey_t2_linspace delay_dur_sec big log)
  = inr (big ++ [map (fun t =>
                        ramsey_sequence qubit dt sx_pulse freq_detuning
                          meas_block buffer_duration
                          (ticks delay_dur_sec default_dt) (ticks t dt))
                   ramsey_t2_linspace]).
Proof.
  unfold ramsey_outer_body, mbind at 1, lift.
  rewrite quantized_ticks_default. cbn [ret]. unfold mbind at 1.
  pose proof (for_each_fold ramsey_t2_linspace _ _
                (ramsey_inner_body_step (ticks delay_dur_sec default_dt))
                [] log) as H.
  destruct (for_each ramsey_t2_linspace _ _ log) as [[e | exps] log'];
    cbn [fst] in H; [discriminate H |].
  injection H as ->. rewrite fold_left_append. reflexivity.
Qed.

End RamseyLoops.

Section ACStarkLoops.

Variable q_freq_spec_sched : ScheduleBlock.
Variable bound : Q -> Z -> ScheduleBlock.
Hypothesis assigned : forall f m,
  assign_parameters [(freq, PyFloat f); (meas_delay, PyInt m)] q_freq_spec_sched
  = ret (bound f m).




End ACStarkLoops.





(** * Further properties *)

(** ** The quantizer beyond the 16-sample grid of non-negative values

    X1, X2, X4 and X5 are about the quantizer as Python computes it, in
    binary64; X3 and X6 are stated in exact arithmetic. *)

Lemma py_int_monotone (x y : Q) : (x <= y)%Q -> py_int x <= py_int y.
Proof.
  intros Hxy. destruct (Qlt_le_dec x 0) as [Hx | Hx];
    destruct (Qlt_le_dec y 0) as [Hy | Hy].
  - rewrite !py_int_nonpos_ceiling by now apply Qlt_le_weak.
    now apply Qceiling_resp_le.
  - rewrite (py_int_nonpos_ceiling x) by now apply Qlt_le_weak.
    rewrite (py_int_nonneg_floor y) by exact Hy.
    assert (Hc : Qceiling x <= Qceiling 0)
      by (apply Qceiling_resp_le; now apply Qlt_le_weak).
    assert (Hf : Qfloor 0 <= Qfloor y) by now apply Qfloor_resp_le.
    change (Qceiling 0) with 0 in Hc. change (Qfloor 0) with 0 in Hf. lia.
  - exfalso. lra.
  - rewrite !py_int_nonneg_floor by (try assumption; lra).
    now apply Qfloor_resp_le.
Qed.

Lemma clear_remainder_monotone (g a b : Z) :
  0 < g -> a <= b -> a - a mod g <= b - b mod g.
Proof.
  intros Hg Hab.
  rewrite (Z.mod_eq a g), (Z.mod_eq b g) by lia.
  pose proof (Z.div_le_mono a b g Hg Hab). nia.
Qed.

(** A multiple of 16 goes through the quantizer unchanged. *)
Lemma quantize16_fixes_multiples (n : Z) :
  n mod 16 = 0 -> get_closest_multiple_of_16 (inject_Z n) = ret n.
Proof.
  intros Hn. rewrite get_closest_multiple_of_16_on_integers. f_equal.
  rewrite <- Zplus_mod_idemp_l, Hn. cbn. lia.
Qed.

(** X1: any granularity.  With a zero base the quantizer raises
    [ZeroDivisionError], at the [%]; with a base [g > 0] and a
    non-negative integer value [n], where [n + g < 2^52], it returns a
    multiple of [g] at most [g/2] away from the value. *)
Theorem quantize_any_granularity :
  (forall n : Z,
      - 2 ^ 53 < n < 2 ^ 53 ->
      Binary64.get_closest_multiple_of (Binary64.Int n) 0
      = raise (ZeroDivisionError "integer modulo by zero"))
  /\ (forall g n : Z,
         0 < g -> 0 <= n -> n + g < 2 ^ 52 ->
         exists r : Z,
           Binary64.get_closest_multiple_of (Binary64.Int n) g = ret r
           /\ r mod g = 0
           /\ Z.abs (2 * (r - n)) <= g).
Proof.
  split.
  - intros n Hn. unfold Binary64.get_closest_multiple_of.
    change (Binary64.truediv (Binary64.Int 0) (Binary64.Int 2))
      with (@ret spec_float (S754_zero false)).
    cbn [bind ret]. unfold Binary64.add, Binary64.to_float.
    destruct (of_int_holds n Hn) as (x & -> & Hx). cbn [bind ret].
    rewrite (to_int_holds _ (n + 0))
      by (apply (SFadd_dyadic 0); [lia | exact Hx | reflexivity | lia]).
    reflexivity.
  - intros g n Hg Hn Hsum.
    rewrite (get_closest_multiple_of_halves (Binary64.Int n) (2 * n) g eq_refl)
      by lia.
    eexists. split; [reflexivity |].
    rewrite Z.quot_div_nonneg by lia.
    pose proof (Z.div_mod (2 * n + g) 2 ltac:(lia)) as Hq.
    pose proof (Z.mod_pos_bound (2 * n + g) 2 ltac:(lia)) as Hr.
    set (q := (2 * n + g) / 2) in *.
    pose proof (Z.mod_pos_bound q g Hg) as Hm.
    split; [| lia].
    rewrite Zminus_mod_idemp_r, Z.sub_diag. apply Z.mod_0_l. lia.
Qed.

Lemma quantize_any_granularity_witness :
  exists r : Z,
    Binary64.get_closest_multiple_of (Binary64.Int 19) 5 = ret r
    /\ r mod 5 = 0
    /\ Z.abs (2 * (r - 19)) <= 5.
Proof.
  apply (proj2 quantize_any_granularity 5 19); lia.
Defined.

(** X2: within the integers that binary64 holds, quantizing to 16 is
    idempotent.  A multiple of 16 between [-2^53] and [2^53 - 8] is
    returned as it is, so quantizing a quantized value changes nothing.
    Beyond, it is not so: the multiple [2^56 + 16] of 16 is sent to
    [2^56 + 32]. *)
Theorem quantize16_idempotent :
  (forall n : Z,
      n mod 16 = 0 -> - 2 ^ 53 < n -> n + 8 < 2 ^ 53 ->
      Binary64.get_closest_multiple_of_16 (Binary64.Int n) = ret n)
  /\ (forall (v : Binary64.number) (n : Z),
         Binary64.integer v n -> - 2 ^ 53 + 8 < n -> n + 16 < 2 ^ 53 ->
         exists r : Z,
           Binary64.get_closest_multiple_of_16 v = ret r
           /\ Binary64.get_closest_multiple_of_16 (Binary64.Int r) = ret r)
  /\ Binary64.get_closest_multiple_of_16 (Binary64.Int (2 ^ 56 + 16))
     = ret (2 ^ 56 + 32).
Proof.
  assert (Hfix : forall n : Z,
    n mod 16 = 0 -> - 2 ^ 53 < n -> n + 8 < 2 ^ 53 ->
    Binary64.get_closest_multiple_of_16 (Binary64.Int n) = ret n).
  { intros n Hn Hlo Hhi.
    rewrite (get_closest_multiple_of_16_exact (Binary64.Int n) n eq_refl)
      by lia.
    f_equal. rewrite <- Zplus_mod_idemp_l, Hn. cbn. lia. }
  split; [exact Hfix | split; [| reflexivity]].
  intros v n Hv Hlo Hhi.
  exists (n + 8 - (n + 8) mod 16).
  split; [apply get_closest_multiple_of_16_exact; (assumption || lia) |].
  pose proof (Z.mod_pos_bound (n + 8) 16 ltac:(lia)) as Hm.
  apply Hfix; try lia.
  rewrite Zminus_mod_idemp_r, Z.sub_diag. reflexivity.
Qed.

Lemma quantize16_idempotent_witness :
  Binary64.get_closest_multiple_of_16 (Binary64.Int (-48)) = ret (-48).
Proof. apply (proj1 quantize16_idempotent (-48)); (reflexivity || lia). Defined.

(** X3: the quantizer is monotone: a larger value, of either sign, never
    gets a smaller multiple of 16. *)
Theorem quantize16_monotone (v w : Q) (Hvw : (v <= w)%Q) :
  exists a b : Z,
    get_closest_multiple_of_16 v = ret a
    /\ get_closest_multiple_of_16 w = ret b
    /\ a <= b.
Proof.
  exists (grid16 v), (grid16 w).
  split; [apply get_closest_multiple_of_16_ret |].
  split; [apply get_closest_multiple_of_16_ret |].
  unfold grid16. apply clear_remainder_monotone; [lia |].
  apply py_int_monotone. lra.
Qed.

Lemma quantize16_monotone_witness :
  exists a b : Z,
    get_closest_multiple_of_16 (-(25 # 2)) = ret a
    /\ get_closest_multiple_of_16 (71 # 3) = ret b
    /\ a <= b.
Proof.
  apply (quantize16_monotone (-(25 # 2)) (71 # 3)).
  unfold Qle; simpl; lia.
Defined.

(** X4: on values of either sign.  An integer between [-2^53] and
    [2^53 - 8], be it an [int] or the float of that value, is moved by at
    most 8; but since [int] truncates toward zero, every float strictly
    between -9 and -8, that is [-m * 2^-49] with [2^52 < m < 9 * 2^49],
    goes up to 0, more than 8 away, rather than down to -16. *)
Theorem quantize16_negative_values :
  (forall (v : Binary64.number) (n : Z),
      Binary64.integer v n -> - 2 ^ 53 < n -> n + 8 < 2 ^ 53 ->
      exists r : Z,
        Binary64.get_closest_multiple_of_16 v = ret r
        /\ r mod 16 = 0 /\ Z.abs (r - n) <= 8)
  /\ (forall m : positive,
         2 ^ 52 < Zpos m < 9 * 2 ^ 49 ->
         Binary64.get_closest_multiple_of_16
           (Binary64.Float (S754_finite true m (-49))) = ret 0).
Proof.
  split.
  - intros v n Hv Hlo Hhi.
    exists (n + 8 - (n + 8) mod 16).
    split; [apply get_closest_multiple_of_16_exact; (assumption || lia) |].
    pose proof (Z.mod_pos_bound (n + 8) 16 ltac:(lia)) as Hm.
    split; [| lia].
    rewrite Zminus_mod_idemp_r, Z.sub_diag. reflexivity.
  - intros m Hm.
    unfold Binary64.get_closest_multiple_of_16, Binary64.get_closest_multiple_of.
    change (Binary64.truediv (Binary64.Int 16) (Binary64.Int 2))
      with (@ret spec_float Binary64.eight).
    cbn [bind ret Binary64.add Binary64.to_float].
    assert (Esum : SFadd Binary64.prec Binary64.emax
                     (S754_finite true m (-49)) Binary64.eight
                   = binary_normalize Binary64.prec Binary64.emax
                       (- Zpos m + 2 ^ 52) (-49) false) by reflexivity.
    rewrite Esum.
    destruct (- Zpos m + 2 ^ 52) as [| p | p] eqn:Ep; try lia.
    unfold binary_normalize.
    destruct (binary_round_exact true p p 0 (-49))
      as (m' & j & E & Hj & Em' & _); try lia.
    rewrite E. cbn [Binary64.to_int].
    assert (Hpow : 0 < 2 ^ j) by (apply Z.pow_pos_nonneg; lia).
    assert (E0 : Z.shiftl (Zpos m') (-49 + 0 - j) = 0).
    { rewrite <- Z.shiftr_opp_r, Z.shiftr_div_pow2 by lia.
      replace (- (-49 + 0 - j)) with (49 + j) by lia.
      rewrite Em', Z.pow_add_r, Z.div_mul_cancel_r by lia.
      apply Z.div_small. lia. }
    rewrite E0. reflexivity.
Qed.

Lemma quantize16_negative_values_witness :
  Binary64.get_closest_multiple_of_16
    (Binary64.Float (S754_finite true (17 * 2 ^ 48) (-49))) = ret 0.
Proof.
  apply (proj2 quantize16_negative_values (17 * 2 ^ 48)%positive).
  split; reflexivity.
Defined.

(** X5: [get_dt_from] raises [ZeroDivisionError] for a zero sample period,
    whatever the duration; what it returns is always a multiple of 16; and
    with the default sample period, 15 ns are 64 samples and 100 ns are
    448. *)
Theorem get_dt_from_ticks :
  (forall (sec : spec_float) (s : bool),
      Binary64.get_dt_from (Binary64.Float sec) (Binary64.Float (S754_zero s))
      = raise (ZeroDivisionError "float division by zero")
      /\ Binary64.get_dt_from (Binary64.Float sec) (Binary64.Int 0)
         = raise (ZeroDivisionError "float division by zero"))
  /\ (forall (sec dt : Binary64.number) (r : Z),
         Binary64.get_dt_from sec dt = ret r -> r mod 16 = 0)
  /\ (dt <- Binary64.default_dt ;;
      sec <- Binary64.literal 15 (-9) ;;
      Binary64.get_dt_from (Binary64.Float sec) (Binary64.Float dt))%result
     = ret 64
  /\ (dt <- Binary64.default_dt ;;
      sec <- Binary64.literal 1 (-7) ;;
      Binary64.get_dt_from (Binary64.Float sec) (Binary64.Float dt))%result
     = ret 448.
Proof.
  split; [| split; [| split; reflexivity]].
  - intros sec s. split; reflexivity.
  - intros sec dt r.
    unfold Binary64.get_dt_from, Binary64.get_closest_multiple_of.
    destruct (Binary64.truediv sec dt) as [e | q]; [discriminate |].
    change (Binary64.truediv (Binary64.Int 16) (Binary64.Int 2))
      with (@ret spec_float Binary64.eight).
    cbn [bind ret Binary64.add Binary64.to_float].
    destruct (Binary64.to_int _) as [e | whole]; [discriminate |].
    cbn [bind ret py_mod Z.eqb]. intros H. injection H as <-.
    rewrite Zminus_mod_idemp_r, Z.sub_diag. reflexivity.
Qed.

Lemma get_dt_from_ticks_witness :
  64 mod 16 = 0.
Proof.
  apply (proj1 (proj2 get_dt_from_ticks)
           (Binary64.Float (S754_finite false 4533471823554859 (-78)))
           (Binary64.Float (S754_finite false 8596805828370696 (-85))) 64).
  reflexivity.
Defined.

(** X6: the builders quantize the result of [get_dt_from] once more with
    [get_closest_multiple_of_16]; that second pass changes nothing, be it
    a tick count or the exception of a zero sample period. *)
Theorem requantizing_ticks_is_identity (sec dt : Q) :
  quantized_ticks sec dt = get_dt_from sec dt.
Proof.
  unfold quantized_ticks, get_dt_from.
  destruct (Qeq_bool dt 0); [reflexivity |].
  rewrite get_closest_multiple_of_ret by discriminate. cbn [bind ret].
  apply quantize16_fixes_multiples.
  apply grid16_divisible.
Qed.

(** ** The validator: what a verdict means *)

Lemma nonempty_or_not (job : list Schedule) :
  Forall nonempty job \/ Exists (fun s => instructions s = []) job.
Proof.
  induction job as [| s rest [IH | IH]].
  - left. constructor.
  - destruct (instructions s) as [| i l] eqn:E.
    + right. now constructor.
    + left. constructor; [| exact IH]. unfold nonempty. now rewrite E.
  - right. now constructor 2.
Qed.

Lemma forallb_grid_iff (all : list Z) :
  forallb (fun d => d mod 16 =? 0) all = true
  /\ forallb (fun d => negb (d =? 0)) all = true
  <-> Forall nonzero_multiple_of_16 all.
Proof.
  rewrite !forallb_forall, Forall_forall. unfold nonzero_multiple_of_16.
  split.
  - intros [H1 H2] d Hin. split.
    + now apply Z.eqb_eq, H1.
    + now apply Z.eqb_neq, negb_true_iff, H2.
  - intros H. split; intros d Hin; destruct (H d Hin) as [Hm Hz].
    + now apply Z.eqb_eq.
    + now apply negb_true_iff, Z.eqb_neq.
Qed.

(** The last two tests pass exactly on a list whose members all equal one
    multiple of 16. *)
Lemma common_window_iff (first : Z) (rest : list Z) :
  forallb (fun d => d =? first) (first :: rest) = true /\ first mod 16 = 0
  <-> exists d, d mod 16 = 0 /\ Forall (eq d) (first :: rest).
Proof.
  rewrite forallb_eqb_first. split.
  - intros [Hall Hm]. now exists first.
  - intros (d & Hm & Hall). inversion Hall; subst. auto.
Qed.

(** The verdict on the gathered lists, read as a proposition. *)
Lemma check_durations_accepts (n : nat) (acq all : list Z) :
  check_durations n acq all = ret tt
  <-> Forall nonzero_multiple_of_16 all
      /\ List.length acq = n
      /\ acq <> []
      /\ exists d, d mod 16 = 0 /\ Forall (eq d) acq.
Proof.
  split.
  - intros H. unfold check_durations in H.
    destruct (forallb (fun d => d mod 16 =? 0) all) eqn:E1;
      cbn [negb] in H; [| discriminate H].
    destruct (forallb (fun d => negb (d =? 0)) all) eqn:E2;
      cbn [negb] in H; [| discriminate H].
    destruct (Nat.eqb (List.length acq) n) eqn:E3;
      cbn [negb] in H; [| discriminate H].
    destruct acq as [| first rest]; [discriminate H |].
    destruct (forallb (fun d => d =? first) (first :: rest)) eqn:E4;
      cbn [negb] in H; [| discriminate H].
    destruct (first mod 16 =? 0) eqn:E5; cbn [negb] in H; [| discriminate H].
    split; [now apply forallb_grid_iff |].
    split; [now apply Nat.eqb_eq |].
    split; [discriminate |].
    apply common_window_iff. split; [exact E4 | now apply Z.eqb_eq].
  - intros (Hall & Hlen & Hne & Hcommon).
    rewrite (check_durations_on_grid _ _ _ Hall).
    apply Nat.eqb_eq in Hlen. rewrite Hlen. cbn [negb].
    destruct acq as [| first rest]; [now elim Hne |].
    apply common_window_iff in Hcommon. destruct Hcommon as [E4 E5].
    rewrite E4. apply Z.eqb_eq in E5. rewrite E5. reflexivity.
Qed.

(** X7: what acceptance means.  The validator returns without raising
    exactly when the batch is not empty, no sequence is empty, every play
    lasts a non-zero multiple of 16 samples, the batch holds as many
    acquisitions as sequences, and all acquisitions last one and the same
    multiple of 16 samples. *)
Theorem acquisition_checker_accepts (job : list Schedule) :
  acquisition_checker job = ret tt
  <-> job <> []
      /\ Forall nonempty job
      /\ plays_on_grid job
      /\ List.length (acq_durations (ops_of_job job)) = List.length job
      /\ exists d, d mod 16 = 0
                   /\ Forall (eq d) (acq_durations (ops_of_job job)).
Proof.
  split.
  - intros H. destruct (nonempty_or_not job) as [Hne | Hex].
    + rewrite (acquisition_checker_verdict job Hne) in H.
      apply check_durations_accepts in H.
      destruct H as (Hall & Hlen & Hacq & Hcommon).
      repeat split; try assumption.
      intros ->. now apply Hacq.
    + unfold acquisition_checker in H.
      rewrite (scan_job_empty_sequence job _ Hex) in H. discriminate H.
  - intros (Hjob & Hne & Hall & Hlen & Hcommon).
    rewrite (acquisition_checker_verdict job Hne).
    apply check_durations_accepts. repeat split; try assumption.
    intros E. rewrite E in Hlen. destruct job; [now elim Hjob | discriminate].
Qed.

Lemma acquisition_checker_accepts_witness :
  acquisition_checker job_uniform = ret tt.
Proof.
  apply (proj2 (acquisition_checker_accepts job_uniform)).
  split; [discriminate |].
  split; [repeat constructor; discriminate |].
  split; [repeat constructor; discriminate |].
  split; [reflexivity |].
  exists 512. split; [reflexivity | repeat constructor].
Defined.

(** X8: the validator fails with an [IndexError], not with one of its own
    [ValueError]s, exactly when the batch is empty or holds a sequence
    without instructions. *)
Theorem acquisition_checker_index_error (job : list Schedule) :
  (exists msg, acquisition_checker job = raise (IndexError msg))
  <-> job = [] \/ Exists (fun s => instructions s = []) job.
Proof.
  split.
  - intros (msg & H). destruct (nonempty_or_not job) as [Hne | Hex];
      [| now right].
    left. rewrite (acquisition_checker_verdict job Hne) in H.
    unfold check_durations in H.
    destruct (negb (forallb (fun d => d mod 16 =? 0) _)); [discriminate H |].
    destruct (negb (forallb (fun d => negb (d =? 0)) _)); [discriminate H |].
    destruct (Nat.eqb _ _) eqn:E; cbn [negb] in H; [| discriminate H].
    destruct (acq_durations (ops_of_job job)) as [| first rest].
    + apply Nat.eqb_eq in E. destruct job; [reflexivity | discriminate E].
    + destruct (negb (forallb _ _)); [discriminate H |].
      destruct (negb (first mod 16 =? 0)); discriminate H.
  - intros [-> | Hex].
    + eexists. reflexivity.
    + eexists. unfold acquisition_checker.
      rewrite (scan_job_empty_sequence job _ Hex). reflexivity.
Qed.

Lemma acquisition_checker_index_error_witness :
  exists msg,
    acquisition_checker (job_uniform ++ [sequence []]) = raise (IndexError msg).
Proof.
  apply (proj2 (acquisition_checker_index_error (job_uniform ++ [sequence []]))).
  right. apply Exists_app. right. constructor. reflexivity.
Defined.

(** ** The validator: what it does not look at *)

Lemma scan_ops_retime (stretch : Z -> Z) (ops : list Instruction)
    (st : list Z * list Z) :
  scan_ops (map (retime_op stretch) ops) st = scan_ops ops st.
Proof.
  revert st. induction ops as [| op rest IH]; intros st; [reflexivity |].
  destruct op as [f ch | p ch nm | [d | par] ch nm | d q r | q r | t | b];
    cbn; apply IH.
Qed.

Lemma scan_job_retime (shift stretch : Z -> Z) (job : list Schedule)
    (st : list Z * list Z) :
  scan_job (map (retime shift stretch) job) st = scan_job job st.
Proof.
  revert st. induction job as [| s rest IH]; intros st; [reflexivity |].
  cbn [map scan_job]. unfold ops_array, retime at 1. cbn [instructions].
  destruct (instructions s) as [| i l] eqn:E; [reflexivity |].
  cbn [map bind ret]. rewrite IH. f_equal.
  change (snd (shift (fst i), retime_op stretch (snd i))
          :: map snd (map (fun timed => (shift (fst timed),
                                         retime_op stretch (snd timed))) l))
    with (map snd (map (fun timed => (shift (fst timed),
                                      retime_op stretch (snd timed)))
                     (i :: l))).
  rewrite map_map. cbn [snd].
  rewrite <- (map_map snd (retime_op stretch)).
  apply scan_ops_retime.
Qed.

(** X9: the verdict depends neither on the start times nor on the
    durations of the delays: moving every instruction in time and
    stretching every delay, by any rule, leaves it as it was. *)
Theorem acquisition_checker_ignores_timing (shift stretch : Z -> Z)
    (job : list Schedule) :
  acquisition_checker (map (retime shift stretch) job)
  = acquisition_checker job.
Proof.
  unfold acquisition_checker.
  now rewrite scan_job_retime, length_map.
Qed.

(** ** The validator: the order of the batch *)

Lemma forallb_permutation {A} (f : A -> bool) (l l' : list A) :
  Permutation l l' -> forallb f l = forallb f l'.
Proof.
  intros HP. induction HP; cbn.
  - reflexivity.
  - now rewrite IHHP.
  - destruct (f x), (f y); reflexivity.
  - congruence.
Qed.

Lemma ops_of_job_permutation (job job' : list Schedule) :
  Permutation job job' -> Permutation (ops_of_job job) (ops_of_job job').
Proof.
  intros HP. unfold ops_of_job. induction HP; cbn [flat_map].
  - constructor.
  - now apply Permutation_app_head.
  - rewrite !app_assoc. apply Permutation_app_tail, Permutation_app_comm.
  - eapply perm_trans; eassumption.
Qed.

Lemma durations_permutation (keep : Instruction -> bool)
    (ops ops' : list Instruction) :
  Permutation ops ops' ->
  Permutation (map duration (filter keep ops)) (map duration (filter keep ops')).
Proof.
  intros HP. apply Permutation_map. induction HP; cbn [filter].
  - constructor.
  - destruct (keep x); [now constructor | assumption].
  - destruct (keep x), (keep y); try apply Permutation_refl.
    apply perm_swap.
  - eapply perm_trans; eassumption.
Qed.

(** The checks themselves do not see the order of the gathered lists. *)
Lemma check_durations_permutation (n : nat) (acq acq' all all' : list Z) :
  Permutation acq acq' -> Permutation all all' ->
  check_durations n acq all = check_durations n acq' all'.
Proof.
  intros Hacq Hall. unfold check_durations.
  rewrite (forallb_permutation _ all all' Hall).
  rewrite (forallb_permutation (fun d => negb (d =? 0)) all all' Hall).
  rewrite (Permutation_length Hacq).
  destruct (negb (forallb (fun d => d mod 16 =? 0) all')); [reflexivity |].
  destruct (negb (forallb (fun d => negb (d =? 0)) all')); [reflexivity |].
  destruct (negb (Nat.eqb (List.length acq') n)); [reflexivity |].
  destruct acq as [| first rest].
  { apply Permutation_nil in Hacq. now subst acq'. }
  destruct acq' as [| first' rest'].
  { apply Permutation_sym, Permutation_nil in Hacq. discriminate Hacq. }
  destruct (forallb (fun d => d =? first) (first :: rest)) eqn:E.
  - apply forallb_eqb_first in E.
    assert (E' : Forall (eq first) (first' :: rest'))
      by (eapply Permutation_Forall; eassumption).
    assert (first = first') by (inversion E'; assumption). subst first'.
    apply forallb_eqb_first in E'. rewrite E'. reflexivity.
  - destruct (forallb (fun d => d =? first') (first' :: rest')) eqn:E';
      [| reflexivity].
    exfalso. apply forallb_eqb_first in E'.
    assert (E2 : Forall (eq first') (first :: rest))
      by (eapply Permutation_Forall; [apply Permutation_sym |]; eassumption).
    assert (first' = first) by (inversion E2; assumption). subst first'.
    apply forallb_eqb_first in E2. congruence.
Qed.

(** X10: the verdict does not depend on the order of the sequences in the
    batch. *)
Theorem acquisition_checker_batch_order (job job' : list Schedule)
    (Horder : Permutation job job') :
  acquisition_checker job = acquisition_checker job'.
Proof.
  destruct (nonempty_or_not job) as [Hne | Hex].
  - assert (Hne' : Forall nonempty job')
      by (eapply Permutation_Forall; eassumption).
    rewrite (acquisition_checker_verdict job Hne).
    rewrite (acquisition_checker_verdict job' Hne').
    rewrite (Permutation_length Horder).
    pose proof (ops_of_job_permutation job job' Horder) as Hops.
    apply check_durations_permutation;
      now apply durations_permutation.
  - assert (Hex' : Exists (fun s => instructions s = []) job').
    { apply Exists_exists in Hex. destruct Hex as (s & Hin & Hs).
      apply Exists_exists. exists s. split; [| exact Hs].
      eapply Permutation_in; eassumption. }
    unfold acquisition_checker.
    now rewrite (scan_job_empty_sequence job _ Hex),
      (scan_job_empty_sequence job' _ Hex').
Qed.

Lemma acquisition_checker_batch_order_witness :
  acquisition_checker job_mixed_windows
  = acquisition_checker (rev job_mixed_windows).
Proof.
  apply (acquisition_checker_batch_order job_mixed_windows
           (rev job_mixed_windows)).
  apply Permutation_rev.
Defined.

(** ** The catalog lookup *)

Lemma py_index_end_two {A} (front : list A) (a b : A) :
  py_index_end (front ++ [a; b]) 2 = ret a
  /\ py_index_end (front ++ [a; b]) 1 = ret b.
Proof.
  unfold py_index_end. rewrite rev_app_distr. split; reflexivity.
Qed.

Lemma py_index_end_short {A} (l : list A) :
  (List.length l < 2)%nat ->
  py_index_end l 2 = raise (IndexError "index out of range").
Proof.
  intros H. unfold py_index_end.
  destruct (nth_error (rev l) (Nat.pred 2)) eqn:E; [| reflexivity].
  assert (Hlt : (Nat.pred 2 < List.length (rev l))%nat)
    by (apply nth_error_Some; congruence).
  rewrite length_rev in Hlt. cbn in Hlt. lia.
Qed.

(** X11: what [get_single_qubit_pulses] reads.  When the measure schedule
    ends with a play followed by one more instruction, and the x and sx
    schedules start with a play, it returns the pulses of those three
    plays and, as "meas delay", that last instruction whatever its kind.
    A measure schedule of fewer than two instructions raises [IndexError],
    and one whose last but one instruction is not a play raises
    [AttributeError].  In every case the lookup is logged once. *)
Theorem catalog_lookup_reads (qubit : Z) (backend : Backend)
    (log : list event) :
  let measure_ops :=
    map snd (instructions (instruction_schedule_map backend "measure" qubit)) in
  let x_ops :=
    map snd (instructions (instruction_schedule_map backend "x" qubit)) in
  let sx_ops :=
    map snd (instructions (instruction_schedule_map backend "sx" qubit)) in
  (forall front mp mch mname last xp xch xname xrest sp sch sname srest,
      measure_ops = front ++ [Play mp mch mname; last] ->
      x_ops = Play xp xch xname :: xrest ->
      sx_ops = Play sp sch sname :: srest ->
      get_single_qubit_pulses qubit backend log
      = (inr (mk_single_qubit_rr_dict xp sp mp last),
         log ++ [CatalogLookup qubit]))
  /\ ((List.length measure_ops < 2)%nat ->
      get_single_qubit_pulses qubit backend log
      = (raise (IndexError "index out of range"), log ++ [CatalogLookup qubit]))
  /\ (forall front op last,
         measure_ops = front ++ [op; last] ->
         is_Play op = false ->
         get_single_qubit_pulses qubit backend log
         = (raise (AttributeError "pulse"), log ++ [CatalogLookup qubit])).
Proof.
  cbv zeta. split; [| split].
  - intros front mp mch mname last xp xch xname xrest sp sch sname srest
      Hm Hx Hs.
    unfold get_single_qubit_pulses, mbind, emit, lift, mret.
    rewrite Hm, Hx, Hs.
    destruct (py_index_end_two front (Play mp mch mname) last) as [E2 E1].
    rewrite E2, E1. reflexivity.
  - intros Hshort.
    unfold get_single_qubit_pulses, mbind, emit, lift.
    now rewrite (py_index_end_short _ Hshort).
  - intros front op last Hm Hop.
    unfold get_single_qubit_pulses, mbind, emit, lift.
    rewrite Hm. destruct (py_index_end_two front op last) as [E2 _].
    rewrite E2. destruct op; try reflexivity. discriminate Hop.
Qed.

Lemma catalog_lookup_reads_witness :
  get_single_qubit_pulses 0 SampleBackend.backend []
  = (inr SampleBackend.pulses, [] ++ [CatalogLookup 0]).
Proof.
  apply (proj1 (catalog_lookup_reads 0 SampleBackend.backend [])
           [Acquire 1440 0 (MemorySlot 0)]
           (GaussianSquare 1440 (1 # 4) 64 1184 0) (MeasureChannel 0) []
           (Delay (Bound 1568) (MeasureChannel 0) [])
           (Calibrated "x" 160 40 0) (DriveChannel 0) [] []
           (Calibrated "sx" 160 40 0) (DriveChannel 0) [] []);
    reflexivity.
Defined.

(** ** Integrated and QND fidelity *)

(** X12: with a catalog that answers, [integrated_fidelity_experiment]
    returns two lists of two sequences.  Each excited sequence is its
    ground sequence with the x pulse played first on the drive channel;
    the QND sequences play the catalog's measurement pulse and wait the
    catalog delay's own duration, which is not quantized again, before
    they measure.  When the catalog lookup raises, that exception comes
    out and no sequence was opened. *)
Theorem integrated_fidelity_sequences (qubit : Z) (backend : Backend) :
  (forall d,
      catalog_gives qubit backend d ->
      exists meas_g meas_e qnd_g qnd_e,
        run (integrated_fidelity_experiment qubit backend)
        = (inr ([meas_g; meas_e], [qnd_g; qnd_e]),
           [CatalogLookup qubit;
            BuildSchedule [Lit "meas g"]; BuildSchedule [Lit "meas e"];
            BuildSchedule [Lit "qnd g"]; BuildSchedule [Lit "qnd e"]])
        /\ blocks meas_g = [Measure qubit (MemorySlot qubit)]
        /\ blocks qnd_g
           = [Play (dict_meas_pulse d) (MeasureChannel qubit) [];
              Delay (Bound (duration (dict_meas_delay d)))
                (MeasureChannel qubit) [];
              Measure qubit (MemorySlot qubit)]
        /\ blocks meas_e
           = Play (dict_x_pulse d) (DriveChannel qubit) [] :: blocks meas_g
        /\ blocks qnd_e
           = Play (dict_x_pulse d) (DriveChannel qubit) [] :: blocks qnd_g)
  /\ (forall e,
         fst (run (get_single_qubit_pulses qubit backend)) = inl e ->
         run (integrated_fidelity_experiment qubit backend)
         = (inl e, [CatalogLookup qubit])).
Proof.
  split.
  - intros d Hcat. do 4 eexists.
    unfold run, integrated_fidelity_experiment, mbind at 1.
    rewrite (catalog_gives_run _ _ _ _ Hcat).
    repeat split.
  - intros e He.
    unfold run, integrated_fidelity_experiment, mbind at 1.
    rewrite get_single_qubit_pulses_log, He. reflexivity.
Qed.

Lemma integrated_fidelity_sequences_witness :
  exists meas_g meas_e qnd_g qnd_e,
    run (integrated_fidelity_experiment 0 SampleBackend.backend)
    = (inr ([meas_g; meas_e], [qnd_g; qnd_e]),
       [CatalogLookup 0;
        BuildSchedule [Lit "meas g"]; BuildSchedule [Lit "meas e"];
        BuildSchedule [Lit "qnd g"]; BuildSchedule [Lit "qnd e"]])
    /\ blocks meas_g = [Measure 0 (MemorySlot 0)]
    /\ blocks qnd_g
       = [Play (dict_meas_pulse SampleBackend.pulses) (MeasureChannel 0) [];
          Delay (Bound (duration (dict_meas_delay SampleBackend.pulses)))
            (MeasureChannel 0) [];
          Measure 0 (MemorySlot 0)]
    /\ blocks meas_e
       = Play (dict_x_pulse SampleBackend.pulses) (DriveChannel 0) []
         :: blocks meas_g
    /\ blocks qnd_e
       = Play (dict_x_pulse SampleBackend.pulses) (DriveChannel 0) []
         :: blocks qnd_g.
Proof.
  apply (proj1 (integrated_fidelity_sequences 0 SampleBackend.backend)
           SampleBackend.pulses).
  exact sample_catalog.
Defined.

(** ** Frequency spectroscopy: the class and the function *)

(** Two loops whose bodies agree at every step agree. *)
Lemma for_each_ext {A S} (xs : list A) (body body' : A -> S -> M S) :
  (forall x s log, body x s log = body' x s log) ->
  forall s log, for_each xs body s log = for_each xs body' s log.
Proof.
  intros Hbody. induction xs as [| x rest IH]; intros s log; [reflexivity |].
  cbn [for_each]. unfold mbind. rewrite Hbody.
  destruct (body' x s log) as [[e | s'] log']; [reflexivity | apply IH].
Qed.

(** X13: [RRFreqSpec(...).get_jobs()] and [rr_freq_spec(...)] carry the
    same computation in two copies: on the same arguments they return the
    same sequences and details, or raise the same exception, after the
    same calls. *)
Theorem RRFreqSpec_agrees_with_rr_freq_spec (qubit : Z) (backend : Backend)
    (freq_span : option Q) (num_experiments : option Z)
    (freq_linspace : option sweep) (log : list event) :
  mbind (RRFreqSpec.__init__ qubit backend freq_span num_experiments
           freq_linspace)
    RRFreqSpec.get_jobs log
  = rr_freq_spec qubit backend freq_span num_experiments freq_linspace log.
Proof.
  assert (Hloop : forall x_pulse slot log',
    RRFreqSpec.get_jobs (RRFreqSpec.mk qubit backend slot x_pulse) log'
    = mbind (lift (iterate slot)) (freq_spec_jobs qubit x_pulse) log').
  { intros x_pulse slot log'.
    unfold RRFreqSpec.get_jobs, freq_spec_jobs, mbind at 1 3, lift.
    cbn [RRFreqSpec.freq_linspace].
    destruct (iterate slot) as [e | l]; [reflexivity |].
    unfold mbind at 1 3.
    now rewrite (for_each_ext l
                   (RRFreqSpec.get_jobs_body
                      (RRFreqSpec.mk qubit backend slot x_pulse) l)
                   (freq_spec_body qubit x_pulse l)). }
  unfold RRFreqSpec.__init__, rr_freq_spec.
  unfold mbind, lift, mraise, mret.
  destruct (py_not _) as [e | [|]]; try reflexivity.
  destruct (negb (eq_None freq_span && eq_None num_experiments)).
  - destruct (centred_linspace freq_span num_experiments) as [e | l];
      [reflexivity |].
    destruct (get_single_qubit_pulses qubit backend log) as [[e | d] log'];
      [reflexivity |].
    rewrite Hloop. reflexivity.
  - destruct (get_single_qubit_pulses qubit backend log) as [[e | d] log'];
      [reflexivity |].
    rewrite Hloop. reflexivity.
Qed.

(** ** Frequency spectroscopy: short and half-given sweeps *)

(** X14: sweeps of fewer than two points.  An empty sweep raises
    [UnboundLocalError] for [details] at the [return], after the catalog
    lookup; a sweep of one point raises [IndexError] after both its
    sequences were built.  The same holds for a sweep derived from a count
    of 0 or 1. *)
Theorem short_sweeps_raise (qubit : Z) (backend : Backend)
    (d : single_qubit_rr_dict) (Hcat : catalog_gives qubit backend d) :
  run (rr_freq_spec qubit backend None None (Some (PyList [])))
  = (raise (UnboundLocalError "details"), [CatalogLookup qubit])
  /\ (forall f,
         run (rr_freq_spec qubit backend None None (Some (PyList [f])))
         = (raise (IndexError "index out of range"),
            [CatalogLookup qubit;
             BuildSchedule (block_name (ground_sequence qubit f));
             BuildSchedule
               (block_name (excited_sequence qubit (dict_x_pulse d) f))]))
  /\ (forall span,
         run (rr_freq_spec qubit backend (Some span) (Some 0) None)
         = (raise (UnboundLocalError "details"), [CatalogLookup qubit]))
  /\ (forall span,
         fst (run (rr_freq_spec qubit backend (Some span) (Some 1) None))
         = raise (IndexError "index out of range")).
Proof.
  split; [| split; [| split]].
  - unfold run. rewrite (rr_freq_spec_explicit _ _ _ _ _ Hcat). reflexivity.
  - intros f. unfold run.
    rewrite (rr_freq_spec_explicit _ _ _ _ _ Hcat). reflexivity.
  - intros span. unfold run.
    rewrite (rr_freq_spec_derived _ _ d span 0 [] _ Hcat); reflexivity.
  - intros span.
    assert (Hl : exists f, centred_linspace (Some span) (Some 1) = ret [f])
      by (eexists; reflexivity).
    destruct Hl as (f & Hl). unfold run.
    rewrite (rr_freq_spec_derived _ _ d span 1 [f] _ Hcat Hl). reflexivity.
Qed.

Lemma short_sweeps_raise_witness :
  run (rr_freq_spec 0 SampleBackend.backend None None (Some (PyList [])))
  = (raise (UnboundLocalError "details"), [CatalogLookup 0]).
Proof.
  apply (short_sweeps_raise 0 SampleBackend.backend SampleBackend.pulses).
  exact sample_catalog.
Defined.

(** X15: a pair given by half.  With [freq_span] alone or
    [num_experiments] alone, and no [freq_linspace], the argument test
    lets the call through and [np.linspace] raises a [TypeError], in the
    function as in the class, before the backend is touched; with an
    explicit list besides, the argument test raises its [ValueError]. *)
Theorem half_given_pair (qubit : Z) (backend : Backend)
    (span : Q) (num : Z) (l : list Q) (log : list event) :
  (exists msg,
      rr_freq_spec qubit backend (Some span) None None log
      = (raise (TypeError msg), log)
      /\ RRFreqSpec.__init__ qubit backend (Some span) None None log
         = (raise (TypeError msg), log))
  /\ (exists msg,
         rr_freq_spec qubit backend None (Some num) None log
         = (raise (TypeError msg), log)
         /\ RRFreqSpec.__init__ qubit backend None (Some num) None log
            = (raise (TypeError msg), log))
  /\ rr_freq_spec qubit backend (Some span) None (Some (PyList l)) log
     = (raise (ValueError msg_sweep), log)
  /\ rr_freq_spec qubit backend None (Some num) (Some (PyList l)) log
     = (raise (ValueError msg_sweep), log).
Proof.
  split; [| split; [| split]].
  - eexists. split; reflexivity.
  - eexists. split; reflexivity.
  - reflexivity.
  - reflexivity.
Qed.

(** ** The derived sweep *)

Lemma last_is_nth {A} (l : list A) (d : A) :
  last l d = nth (Nat.pred (List.length l)) l d.
Proof.
  induction l as [| a [| b l] IH]; try reflexivity.
  change (last (a :: b :: l) d) with (last (b :: l) d). rewrite IH. reflexivity.
Qed.

(** The points of [np.linspace] for two samples or more. *)
Lemma np_linspace_points (start stop : Q) (num : Z) :
  2 <= num ->
  exists l,
    np_linspace start stop num = ret l
    /\ List.length l = Z.to_nat num
    /\ forall i, (i < Z.to_nat num)%nat ->
                 nth i l 0%Q
                 = (inject_Z (Z.of_nat i)
                    * ((stop - start) / inject_Z (num - 1)) + start)%Q.
Proof.
  intros Hnum. unfold np_linspace.
  destruct (Z.ltb_spec num 0) as [Hneg | _]; [lia |].
  destruct (Z.eqb_spec num 1) as [Hone | _]; [lia |].
  eexists. split; [reflexivity |]. split.
  - now rewrite length_map, length_seq.
  - intros i Hi.
    set (f := fun i : nat =>
                (inject_Z (Z.of_nat i)
                 * ((stop - start) / inject_Z (num - 1)) + start)%Q).
    rewrite (nth_indep _ 0%Q (f 0%nat))
      by now rewrite length_map, length_seq.
    rewrite (map_nth f), seq_nth by exact Hi. reflexivity.
Qed.

Lemma inject_Z_nonzero (n : Z) : n <> 0 -> ~ (inject_Z n == 0)%Q.
Proof.
  intros Hn E. apply Hn. unfold Qeq in E. simpl in E. lia.
Qed.

(** X16: the sweep derived from [(freq_span, num_experiments)] with two
    points or more has [num_experiments] points, the first at
    [-freq_span/2] and the last at [+freq_span/2]. *)
Theorem centred_sweep (span : Q) (num : Z) (Hnum : 2 <= num) :
  exists sweep,
    centred_linspace (Some span) (Some num) = ret sweep
    /\ List.length sweep = Z.to_nat num
    /\ (nth 0 sweep 0 == - (span / 2))%Q
    /\ (last sweep 0 == span / 2)%Q.
Proof.
  destruct (np_linspace_points (- (1 # 2) * span) ((1 # 2) * span) num Hnum)
    as (sweep & Hsweep & Hlen & Hnth).
  exists sweep. split; [exact Hsweep |]. split; [exact Hlen |].
  assert (Hd : ~ (inject_Z (num - 1) == 0)%Q) by (apply inject_Z_nonzero; lia).
  split.
  - rewrite (Hnth 0%nat) by lia. change (inject_Z (Z.of_nat 0)) with 0%Q.
    field. exact Hd.
  - rewrite last_is_nth, Hlen, (Hnth (Nat.pred (Z.to_nat num))) by lia.
    replace (Z.of_nat (Nat.pred (Z.to_nat num))) with (num - 1) by lia.
    field. exact Hd.
Qed.

Lemma centred_sweep_witness :
  exists sweep,
    centred_linspace (Some 6000000%Q) (Some 4) = ret sweep
    /\ List.length sweep = Z.to_nat 4
    /\ (nth 0 sweep 0 == - (6000000 / 2))%Q
    /\ (last sweep 0 == 6000000 / 2)%Q.
Proof. apply (centred_sweep 6000000%Q 4). lia. Defined.

Lemma round_half_even_Qeq (x y : Q) :
  (x == y)%Q -> round_half_even x = round_half_even y.
Proof.
  intros H. unfold round_half_even.
  rewrite (Qfloor_comp x y H).
  assert (E : (x - inject_Z (Qfloor y) == y - inject_Z (Qfloor y))%Q)
    by now rewrite H.
  now rewrite (Qcompare_comp _ _ E (1 # 2) (1 # 2) (Qeq_refl _)).
Qed.

Lemma py_round_Qeq (x y : Q) (ndigits : nat) :
  (x == y)%Q -> (py_round x ndigits == py_round y ndigits)%Q.
Proof.
  intros H. unfold py_round.
  assert (E : (x * inject_Z (10 ^ Z.of_nat ndigits)
               == y * inject_Z (10 ^ Z.of_nat ndigits))%Q) by now rewrite H.
  now rewrite (round_half_even_Qeq _ _ E).
Qed.

(** X17: what [rr_freq_spec] reports for a derived sweep of two points or
    more: the total experiment size is twice [num_experiments], and the
    span, in MHz and rounded to three decimals, is that of [freq_span]. *)
Theorem derived_sweep_details (qubit : Z) (backend : Backend)
    (d : single_qubit_rr_dict) (span : Q) (num : Z)
    (Hcat : catalog_gives qubit backend d) (Hnum : 2 <= num) :
  exists g e details reported,
    fst (run (rr_freq_spec qubit backend (Some span) (Some num) None))
    = inr (g, e, details)
    /\ lookup "Total Experiment Size" details = Some (inject_Z (2 * num))
    /\ lookup "Frequency Span (MHz)" details = Some reported
    /\ (reported == py_round (span / MHz) 3)%Q.
Proof.
  destruct (np_linspace_points (- (1 # 2) * span) ((1 # 2) * span) num Hnum)
    as (sweep & Hsweep & Hlen & Hnth).
  destruct sweep as [| f0 [| f1 rest]];
    [cbn in Hlen; lia | cbn in Hlen; lia |].
  do 4 eexists. split; [| split; [| split]].
  - unfold run.
    rewrite (rr_freq_spec_derived _ _ _ _ _ _ _ Hcat Hsweep).
    apply (freq_spec_jobs_result qubit (dict_x_pulse d) (f0 :: f1 :: rest)
             f0 f1 (last (f0 :: f1 :: rest) f0));
      [reflexivity | reflexivity | apply py_index_end_last].
  - cbn [lookup sweep_details String.eqb Ascii.eqb Bool.eqb andb].
    rewrite Hlen. do 2 f_equal. lia.
  - reflexivity.
  - apply py_round_Qeq.
    assert (Hd : ~ (inject_Z (num - 1) == 0)%Q)
      by (apply inject_Z_nonzero; lia).
    pose proof (Hnth 0%nat ltac:(lia)) as H0. cbn [nth] in H0.
    assert (El : last (f0 :: f1 :: rest) f0
                 = nth (Nat.pred (Z.to_nat num)) (f0 :: f1 :: rest) 0%Q).
    { rewrite (last_is_nth _ f0), Hlen. apply nth_indep. rewrite Hlen. lia. }
    rewrite Hnth in El by lia.
    replace (Z.of_nat (Nat.pred (Z.to_nat num))) with (num - 1) in El by lia.
    change (inject_Z (Z.of_nat 0)) with 0%Q in H0.
    rewrite El, H0. unfold MHz.
    field. exact Hd.
Qed.

Lemma derived_sweep_details_witness :
  exists g e details reported,
    fst (run (rr_freq_spec 0 SampleBackend.backend
                (Some 6000000%Q) (Some 4) None))
    = inr (g, e, details)
    /\ lookup "Total Experiment Size" details = Some (inject_Z (2 * 4))
    /\ lookup "Frequency Span (MHz)" details = Some reported
    /\ (reported == py_round (6000000 / MHz) 3)%Q.
Proof.
  apply (derived_sweep_details 0 SampleBackend.backend SampleBackend.pulses
           6000000%Q 4 sample_catalog).
  lia.
Defined.

(** ** What the two-level builders return and raise *)

(** The Ramsey builder, once its primary sweep is settled. *)
Lemma general_ramsey_result (qubit : Z) (backend : Backend)
    (d : single_qubit_rr_dict) (freq_detuning : Q)
    (num_periods points_per_period : Z) (meas_block : option ScheduleBlock)
    (buffer_duration : Q) (secondary : scalar_or_array)
    (inp_linspace : option (list Q)) (primary delays : list Q) :
  catalog_gives qubit backend d ->
  Qeq_bool (dt backend) 0 = false ->
  ramsey_linspace freq_detuning num_periods points_per_period inp_linspace
  = ret primary ->
  as_iterable secondary = ret delays ->
  fst (run (general_ramsey_t2_experiment qubit backend freq_detuning
              num_periods points_per_period meas_block buffer_duration
              secondary inp_linspace))
  = inr (map (fun delay =>
                map (fun t =>
                       ramsey_sequence qubit (dt backend) (dict_sx_pulse d)
                         freq_detuning meas_block (grid16 buffer_duration)
                         (ticks delay default_dt) (ticks t (dt backend)))
                  primary)
           delays,
         primary).
Proof.
  intros Hcat Hdt Hlin Hsec.
  unfold run, general_ramsey_t2_experiment, mbind at 1, lift.
  rewrite Hlin. cbn [ret]. unfold mbind at 1.
  rewrite (catalog_gives_run _ _ _ _ Hcat).
  unfold mbind at 1, lift. rewrite get_closest_multiple_of_16_ret.
  cbn [ret]. unfold mbind at 1, lift. rewrite Hsec. cbn [ret].
  unfold mbind at 1.
  pose proof (for_each_fold delays _ _
                (ramsey_outer_body_step qubit (dt backend) (dict_sx_pulse d)
                   freq_detuning meas_block (grid16 buffer_duration) Hdt
                   primary)
                [] ([] ++ [CatalogLookup qubit])) as H.
  destruct (for_each delays _ _ _) as [[e | big] log']; cbn [fst] in H;
    [discriminate H |].
  injection H as ->. rewrite fold_left_append. reflexivity.
Qed.



(** X18: the primary sweep of the Ramsey builder.  With no [inp_linspace]
    and a zero detuning the builder raises [ZeroDivisionError] before it
    touches the backend.  With a non-zero detuning it sweeps
    [num_periods * points_per_period + 1] delays, the first of 0 seconds,
    and returns that sweep beside the sequences. *)
Theorem ramsey_primary_sweep (qubit : Z) (backend : Backend)
    (freq_detuning : Q) (num_periods points_per_period : Z)
    (meas_block : option ScheduleBlock) (buffer_duration : Q)
    (secondary : scalar_or_array) :
  ((freq_detuning == 0)%Q ->
   run (general_ramsey_t2_experiment qubit backend freq_detuning num_periods
          points_per_period meas_block buffer_duration secondary None)
   = (raise (ZeroDivisionError "float division by zero"), []))
  /\ (forall d delays,
         ~ (freq_detuning == 0)%Q ->
         1 <= num_periods -> 1 <= points_per_period ->
         catalog_gives qubit backend d ->
         Qeq_bool (dt backend) 0 = false ->
         as_iterable secondary = ret delays ->
         exists big primary,
           fst (run (general_ramsey_t2_experiment qubit backend freq_detuning
                       num_periods points_per_period meas_block
                       buffer_duration secondary None))
           = inr (big, primary)
           /\ List.length primary
              = Z.to_nat (num_periods * points_per_period + 1)
           /\ (nth 0 primary 0 == 0)%Q).
Proof.
  split.
  - intros Hzero. apply Qeq_bool_iff in Hzero.
    unfold run, general_ramsey_t2_experiment, mbind, lift, ramsey_linspace.
    now rewrite Hzero.
  - intros d delays Hfd Hnp Hppp Hcat Hdt Hsec.
    assert (Hfdb : Qeq_bool freq_detuning 0 = false).
    { destruct (Qeq_bool freq_detuning 0) eqn:E; [| reflexivity].
      apply Qeq_bool_iff in E. contradiction. }
    destruct (np_linspace_points 0 (inject_Z num_periods / freq_detuning)
                (num_periods * points_per_period + 1) ltac:(nia))
      as (primary & Hlin & Hlen & Hnth).
    assert (Hram : ramsey_linspace freq_detuning num_periods points_per_period
                     None = ret primary).
    { unfold ramsey_linspace. now rewrite Hfdb. }
    exists (map (fun delay =>
                   map (fun t =>
                          ramsey_sequence qubit (dt backend) (dict_sx_pulse d)
                            freq_detuning meas_block (grid16 buffer_duration)
                            (ticks delay default_dt) (ticks t (dt backend)))
                     primary)
              delays), primary.
    split; [now apply general_ramsey_result |].
    split; [exact Hlen |].
    rewrite (Hnth 0%nat) by nia. change (inject_Z (Z.of_nat 0)) with 0%Q.
    assert (Hd : ~ (inject_Z (num_periods * points_per_period + 1 - 1) == 0)%Q)
      by (apply inject_Z_nonzero; nia).
    field. repeat split; assumption.
Qed.

Lemma ramsey_primary_sweep_witness :
  exists big primary,
    fst (run (general_ramsey_t2_experiment 0 SampleBackend.backend
                (1000000 # 1) 2 4 None 0 (OfFloat 0) None))
    = inr (big, primary)
    /\ List.length primary = Z.to_nat (2 * 4 + 1)
    /\ (nth 0 primary 0 == 0)%Q.
Proof.
  apply (proj2 (ramsey_primary_sweep 0 SampleBackend.backend (1000000 # 1)
                  2 4 None 0 (OfFloat 0))
           SampleBackend.pulses [0%Q]).
  - discriminate.
  - lia.
  - lia.
  - exact sample_catalog.
  - reflexivity.
  - reflexivity.
Defined.



(** ** The 16-sample grid in what the builders return *)










(** ** The [ACStarkPhoton] object *)

(** X23: what a construction leaves in the object, and when.  With a
    catalog that answers, a measurement pulse that has a sigma and a
    supported mode, [ACStarkPhoton(...)] asks the pulse library for a
    measurement pulse of the quantized duration: a flat-top of width
    [duration - 4 * sigma] for ["gaussian_square"], a Gaussian for
    ["gaussian"], both of angle 0.  If the library accepts it, the
    constructor reads the catalog once, opens no sequence, and returns an
    object that holds this pulse, the quantized duration and the other
    arguments as given; if the library refuses it, the constructor raises
    the library's [PulseError] and returns no object. *)
Theorem ACStarkPhoton_constructed (library : Library)
    (qubit : Z) (backend : Backend)
    (d : single_qubit_rr_dict) (sigma : Q)
    (freq_linspace : list Q) (meas_amp qubit_amp : Q)
    (meas_duration qubit_duration buffer_delay_duration : Q)
    (meas_delay_sec : scalar_or_array) (qubit_sigma_sec : Q)
    (mode : string) (delay_duration_dt : Q)
    (Hcat : catalog_gives qubit backend d)
    (Hsigma : pulse_sigma (dict_meas_pulse d) = ret sigma)
    (Hmode : In mode ACStarkPhoton.supported_modes) :
  let p := class_meas_pulse mode meas_amp meas_duration sigma in
  (accepts library p = true ->
   exists self,
     run (ACStarkPhoton.__init__ library qubit backend freq_linspace meas_amp
            qubit_amp meas_duration qubit_duration buffer_delay_duration
            meas_delay_sec qubit_sigma_sec mode delay_duration_dt)
     = (inr self, [CatalogLookup qubit])
     /\ ACStarkPhoton.meas_duration self mod 16 = 0
     /\ ACStarkPhoton.meas_duration self = grid16 meas_duration
     /\ ACStarkPhoton.meas_pulse self = Some p
     /\ pulse_duration p = ACStarkPhoton.meas_duration self
     /\ pulse_angle p = 0%Q
     /\ ACStarkPhoton.meas_delay_sec self = meas_delay_sec
     /\ ACStarkPhoton.freq_linspace self = freq_linspace
     /\ ACStarkPhoton.qubit_amp self = qubit_amp
     /\ ACStarkPhoton.qubit_duration self = qubit_duration
     /\ ACStarkPhoton.buffer_delay_duration self = buffer_delay_duration)
  /\ (accepts library p = false ->
      run (ACStarkPhoton.__init__ library qubit backend freq_linspace meas_amp
             qubit_amp meas_duration qubit_duration buffer_delay_duration
             meas_delay_sec qubit_sigma_sec mode delay_duration_dt)
      = (raise (PulseError "invalid pulse parameters"), [CatalogLookup qubit]))
  /\ (mode = "gaussian_square"%string ->
      p = GaussianSquare (grid16 meas_duration) meas_amp sigma
            (inject_Z (grid16 meas_duration) - 4 * sigma) 0)
  /\ (mode = "gaussian"%string ->
      p = Gaussian (grid16 meas_duration) meas_amp sigma 0).
Proof.
  cbv zeta.
  assert (Hrun :
    run (ACStarkPhoton.__init__ library qubit backend freq_linspace meas_amp
           qubit_amp meas_duration qubit_duration buffer_delay_duration
           meas_delay_sec qubit_sigma_sec mode delay_duration_dt)
    = (if accepts library (class_meas_pulse mode meas_amp meas_duration sigma)
       then inr (ACStarkPhoton.mk (dict_meas_pulse d)
                   (Some (class_meas_pulse mode meas_amp meas_duration sigma))
                   qubit backend freq_linspace meas_amp qubit_amp
                   (grid16 meas_duration) qubit_duration buffer_delay_duration
                   meas_delay_sec qubit_sigma_sec mode delay_duration_dt)
       else raise (PulseError "invalid pulse parameters"),
       [CatalogLookup qubit])).
  { unfold run, ACStarkPhoton.__init__, mbind at 1.
    rewrite (catalog_gives_run _ _ _ _ Hcat).
    unfold mbind at 1, lift. rewrite get_closest_multiple_of_16_ret.
    cbn [ret]. unfold mbind at 1. rewrite Hsigma.
    cbn [ret]. fold (grid16 meas_duration).
    unfold pulse.construct, mbind, lift, mret.
    destruct Hmode as [<- | [<- | []]].
    - change (class_meas_pulse "gaussian_square" meas_amp meas_duration sigma)
        with (GaussianSquare (grid16 meas_duration) meas_amp sigma
                (inject_Z (grid16 meas_duration) - 4 * sigma) 0).
      change (negb (existsb (String.eqb "gaussian_square")
                      ACStarkPhoton.supported_modes)) with false.
      change (String.eqb "gaussian_square" "gaussian_square") with true.
      change (String.eqb "gaussian_square" "gaussian") with false.
      cbv iota. destruct (accepts library _); reflexivity.
    - change (class_meas_pulse "gaussian" meas_amp meas_duration sigma)
        with (Gaussian (grid16 meas_duration) meas_amp sigma 0).
      change (negb (existsb (String.eqb "gaussian")
                      ACStarkPhoton.supported_modes)) with false.
      change (String.eqb "gaussian" "gaussian_square") with false.
      change (String.eqb "gaussian" "gaussian") with true.
      cbv iota. destruct (accepts library _); reflexivity. }
  rewrite Hrun. split; [| split; [| split]].
  - intros ->. eexists. split; [reflexivity |]. cbn.
    repeat split; try apply grid16_divisible;
      unfold class_meas_pulse; destruct (String.eqb mode "gaussian");
      reflexivity.
  - intros ->. reflexivity.
  - intros ->. reflexivity.
  - intros ->. reflexivity.
Qed.

Lemma ACStarkPhoton_constructed_witness :
  (exists self,
     run (ACStarkPhoton.__init__ SampleBackend.library 0 SampleBackend.backend
            [-1000000; 0; 1000000]%Q (1 # 4) (1 # 10) 1445 160 128
            (OfFloat (1 # 10000000)) (15 # 1000000000) "gaussian" 128)
     = (inr self, [CatalogLookup 0])
     /\ ACStarkPhoton.meas_duration self mod 16 = 0
     /\ ACStarkPhoton.meas_duration self = grid16 1445
     /\ ACStarkPhoton.meas_pulse self
        = Some (class_meas_pulse "gaussian" (1 # 4) 1445 64)
     /\ pulse_duration (class_meas_pulse "gaussian" (1 # 4) 1445 64)
        = ACStarkPhoton.meas_duration self
     /\ pulse_angle (class_meas_pulse "gaussian" (1 # 4) 1445 64) = 0%Q
     /\ ACStarkPhoton.meas_delay_sec self = OfFloat (1 # 10000000)
     /\ ACStarkPhoton.freq_linspace self = [-1000000; 0; 1000000]%Q
     /\ ACStarkPhoton.qubit_amp self = (1 # 10)%Q
     /\ ACStarkPhoton.qubit_duration self = 160%Q
     /\ ACStarkPhoton.buffer_delay_duration self = 128%Q)
  /\ run (ACStarkPhoton.__init__ SampleBackend.library 0 SampleBackend.backend
            [-1000000; 0; 1000000]%Q (1 # 4) (1 # 10) 100 160 128
            (OfFloat (1 # 10000000)) (15 # 1000000000) "gaussian_square" 128)
     = (raise (PulseError "invalid pulse parameters"), [CatalogLookup 0]).
Proof.
  split.
  - apply (ACStarkPhoton_constructed SampleBackend.library 0
             SampleBackend.backend SampleBackend.pulses
             64 [-1000000; 0; 1000000]%Q (1 # 4) (1 # 10) 1445 160 128
             (OfFloat (1 # 10000000)) (15 # 1000000000) "gaussian" 128).
    + exact sample_catalog.
    + reflexivity.
    + right. left. reflexivity.
    + reflexivity.
  - apply (ACStarkPhoton_constructed SampleBackend.library 0
             SampleBackend.backend SampleBackend.pulses
             64 [-1000000; 0; 1000000]%Q (1 # 4) (1 # 10) 100 160 128
             (OfFloat (1 # 10000000)) (15 # 1000000000) "gaussian_square" 128).
    + exact sample_catalog.
    + reflexivity.
    + left. reflexivity.
    + reflexivity.
Defined.

Lemma ACStarkPhoton_mode_checked_witness :
  run (ACStarkPhoton.__init__ SampleBackend.library 0 SampleBackend.backend
         [-1000000; 0; 1000000]%Q (1 # 4) (1 # 10) 1440 160 128
         (OfFloat (1 # 10000000)) (15 # 1000000000) "rectangular" 128)
  = (raise (ValueError ("input mode: " ++ "rectangular"
                        ++ " is not supported, valid modes are ['gaussian_square', 'gaussian']")),
     [CatalogLookup 0]).
Proof.
  apply (ACStarkPhoton_mode_checked SampleBackend.library 0
           SampleBackend.backend SampleBackend.pulses 64).
  - exact sample_catalog.
  - reflexivity.
  - intros [H | [H | []]]; discriminate H.
Defined.
